(** * AIND-Recognizer: model selectors and recognizer

    A shallow embedding of [project_submission/my_model_selectors.py] and
    [my_recognizer.py].  Python floats are Rocq's primitive binary64 floats,
    Python ints are [Z], dictionaries whose iteration order is observable are
    association lists in insertion order, the per-sequence score dictionary
    is a [gmap].  Exceptions and [print] are threaded through a small
    writer/error monad.  The hmmlearn model ([GaussianHMM.fit] and [score])
    and [math.log] are external collaborators and are taken as an interface. *)

From Stdlib Require Import ZArith List Floats Lia.
From stdpp Require Import base option list strings gmap pretty.
Import ListNotations.
Open Scope Z_scope.

(** ** Exceptions, standard output and the [M] monad *)

Inductive exn : Type :=
| NameError (name : string)
| AttributeError (msg : string)
| IndexError (msg : string)
| KeyError (key : string)
| ZeroDivisionError (msg : string)
| ValueError (msg : string)
| OverflowError (msg : string).

(** [str(e)], as printed by [print(e)]. *)
Definition exn_str (e : exn) : string :=
  match e with
  | NameError x => "name '" +:+ x +:+ "' is not defined"
  | KeyError k => "'" +:+ k +:+ "'"
  | AttributeError m | IndexError m | ZeroDivisionError m
  | ValueError m | OverflowError m => m
  end.

(** A computation yields the lines it printed and either the exception it
    raised or its value. *)
Definition M (A : Type) : Type := list string * (exn + A).

Definition ret {A} (a : A) : M A := ([], inr a).
Definition raise {A} (e : exn) : M A := ([], inl e).
Definition print (s : string) : M unit := ([s], inr tt).
Definition lift {A} (r : exn + A) : M A := ([], r).

Definition bind {A B} (m : M A) (k : A → M B) : M B :=
  match m with
  | (out, inl e) => (out, inl e)
  | (out, inr a) => let '(out', r) := k a in (out ++ out', r)
  end.

(** [try: m except: h]: the handler sees the exception; what [m] printed
    before raising stays printed. *)
Definition try_except {A} (m : M A) (h : exn → M A) : M A :=
  match m with
  | (out, inl e) => let '(out', r) := h e in (out ++ out', r)
  | (out, inr a) => (out, inr a)
  end.

#[export] Instance M_ret : MRet M := @ret.
#[export] Instance M_bind : MBind M := λ A B k m, bind m k.

(** [if c: m] with no else branch. *)
Definition when (c : bool) (m : M unit) : M unit := if c then m else ret tt.

(** [for x in l: s = body(s, x)], stopping at the first exception. *)
Fixpoint for_each {S E} (l : list E) (body : S → E → M S) (s : S) : M S :=
  match l with
  | [] => ret s
  | x :: l' => s' ← body s x; for_each l' body s'
  end.

(** [range(a, b)]. *)
Definition py_range (a b : Z) : list Z :=
  map (λ i : nat, a + Z.of_nat i) (seq 0 (Z.to_nat (b - a))).

(** A dictionary in insertion order. *)
Abbreviation dict V := (list (string * V)).

Fixpoint dict_get {V} (d : dict V) (k : string) : M V :=
  match d with
  | [] => raise (KeyError k)
  | (k', v) :: d' => if decide (k' = k) then ret v else dict_get d' k
  end.

(** ** Floats *)

Definition py_gt (a b : float) : bool := PrimFloat.ltb b a.
Definition py_ge (a b : float) : bool := PrimFloat.leb b a.

(** Conversion of an int operand in mixed arithmetic: correctly rounded,
    [OverflowError] beyond the float range. *)
Definition float_of_int (z : Z) : M float :=
  let f := SF2Prim (binary_normalize prec emax z 0 false) in
  if PrimFloat.is_infinity f
  then raise (OverflowError "int too large to convert to float")
  else ret f.

(** [z * x] for an int [z] and a float [x]. *)
Definition int_mul_float (z : Z) (x : float) : M float :=
  c ← float_of_int z; ret (PrimFloat.mul c x).

(** [x / k] for an accumulated total [x] and an int counter [k].  The
    accumulators of the source start as the int [0]; they are kept as the
    float [0.0] here, which gives the same sums, and a zero counter raises
    as [0 / 0] does. *)
Definition py_truediv (x : float) (k : Z) : M float :=
  if decide (k = 0) then raise (ZeroDivisionError "division by zero")
  else d ← float_of_int k; ret (PrimFloat.div x d).

(** ** Data *)

(** One frame is a row of features; [Xarr] is the 2-D array of frames. *)
Definition frame : Type := list float.
Definition Xarr : Type := list frame.

(** [len(X[0])]. *)
Definition len_row0 (X : Xarr) : M Z :=
  match X with
  | [] => raise (IndexError "index 0 is out of bounds for axis 0 with size 0")
  | r :: _ => ret (Z.of_nat (length r))
  end.

(** ** External collaborators *)

(** [GaussianHMM(n_components, covariance_type="diag", n_iter=1000,
    random_state, verbose=False).fit(X, lengths)] and [model.score(X,
    lengths)]; [libm_log] is [math.log] on positive ints. *)
Class Hmmlearn : Type := {
  Model : Type;
  hmm_fit : Z → Z → Xarr → list Z → exn + Model;
  hmm_score : Model → Xarr → list Z → exn + float;
  libm_log : Z → float;
}.

(** [math.log(n)] for an int [n]. *)
Definition math_log `{Hmmlearn} (n : Z) : M float :=
  if decide (n ≤ 0) then raise (ValueError "math domain error")
  else ret (libm_log n).

(** ** [ModelSelector]: the base class *)

(** The object after [__init__]. *)
Record ModelSelector : Type := {
  words : dict (list Xarr);
  hwords : dict (Xarr * list Z);
  sequences : list Xarr;
  X : Xarr;
  lengths : list Z;
  this_word : string;
  n_constant : Z;
  min_n_components : Z;
  max_n_components : Z;
  random_state : Z;
  verbose : bool;
}.

Definition ModelSelector_init (all_word_sequences : dict (list Xarr))
    (all_word_Xlengths : dict (Xarr * list Z)) (this_word : string)
    (n_constant min_n_components max_n_components random_state : Z)
    (verbose : bool) : M ModelSelector :=
  sequences ← dict_get all_word_sequences this_word;
  '(X, lengths) ← dict_get all_word_Xlengths this_word;
  ret {| words := all_word_sequences; hwords := all_word_Xlengths;
         sequences := sequences; X := X; lengths := lengths;
         this_word := this_word; n_constant := n_constant;
         min_n_components := min_n_components;
         max_n_components := max_n_components;
         random_state := random_state; verbose := verbose |}.

Definition msg_created (word : string) (n : Z) : string :=
  "model created for " +:+ word +:+ " with " +:+ pretty n +:+ " states".
Definition msg_failure (word : string) (n : Z) : string :=
  "failure on " +:+ word +:+ " with " +:+ pretty n +:+ " states".

(** Evaluating a name that is bound nowhere in scope. *)
Definition unbound_name {A} (x : string) : M A := raise (NameError x).

Section Selectors.
Context `{Hmmlearn}.

Definition base_model (self : ModelSelector) (num_states : Z)
    : M (option Model) :=
  try_except
    (hmm_model ← lift (hmm_fit num_states self.(random_state)
                               self.(X) self.(lengths));
     when self.(verbose) (print (msg_created self.(this_word) num_states));;
     ret (Some hmm_model))
    (λ _,
     when self.(verbose) (print (msg_failure self.(this_word) num_states));;
     ret None).

(** [hmm_model.score(X, lengths)] on a variable that may hold [None]. *)
Definition score_of (hmm_model : option Model) (X : Xarr) (lengths : list Z)
    : M float :=
  match hmm_model with
  | None => raise (AttributeError
                     "'NoneType' object has no attribute 'score'")
  | Some m => lift (hmm_score m X lengths)
  end.

(** ** [SelectorConstant] *)

Definition SelectorConstant_select (self : ModelSelector)
    : M (option Model) :=
  let best_num_components := self.(n_constant) in
  base_model self best_num_components.

(** The locals [best_num_states], the best score and [best_model] of the
    three searching selectors. *)
Record best : Type := {
  best_num_states : Z;
  best_score : float;
  best_model : option Model;
}.

(** ** [SelectorBIC] *)

Definition bic_model (self : ModelSelector) (num_states : Z)
    : M (float * option Model) :=
  hmm_model ← base_model self num_states;
  n_features ← len_row0 self.(X);
  let p := num_states * num_states + 2 * num_states * n_features - 1 in
  logL ← score_of hmm_model self.(X) self.(lengths);
  logN ← math_log (Z.of_nat (length self.(X)));
  a ← int_mul_float (-2) logL;
  b ← int_mul_float p logN;
  let bic := PrimFloat.add a b in
  ret (bic, hmm_model).

(** The [except:] clause inside the loops of [SelectorBIC.select] and
    [SelectorDIC.select]: its message is formatted from [num_states], a
    name that [select] never binds. *)
Definition on_candidate_failure (self : ModelSelector) (st : best)
    : M best :=
  when self.(verbose)
    (num_states ← unbound_name "num_states";
     print (msg_failure self.(this_word) num_states));;
  ret st.

(** One iteration of the loop of [SelectorBIC.select]. *)
Definition bic_iter (self : ModelSelector) (st : best) (n : Z) : M best :=
  try_except
    ('(score, model) ← bic_model self n;
     if py_gt score st.(best_score)
     then ret {| best_score := score; best_num_states := n;
                 best_model := model |}
     else ret st)
    (λ _, on_candidate_failure self st).

Definition SelectorBIC_select (self : ModelSelector) : M (option Model) :=
  try_except
    (fallback ← base_model self self.(n_constant);
     st ← for_each (py_range self.(min_n_components)
                             self.(max_n_components))
                   (bic_iter self)
                   {| best_num_states := 1; best_score := neg_infinity;
                      best_model := fallback |};
     when self.(verbose)
       (print (msg_created self.(this_word) st.(best_num_states)));;
     ret st.(best_model))
    (λ _, ret None).

(** ** [SelectorDIC] *)

Definition anti_dic_score (self : ModelSelector) (hmm_model : option Model)
    : M float :=
  '(total_score, word_count) ←
    for_each self.(hwords)
      (λ '(total_score, word_count) '(word, features),
       if decide (self.(this_word) ≠ word)
       then let '(X, lengths) := features in
            score ← score_of hmm_model X lengths;
            ret (PrimFloat.add total_score score, word_count + 1)
       else ret (total_score, word_count))
      (0%float, 0);
  avg_score ← py_truediv total_score word_count;
  ret avg_score.

Definition dic_model (self : ModelSelector) (num_states : Z)
    : M (float * option Model) :=
  hmm_model ← base_model self num_states;
  p_evidence ← score_of hmm_model self.(X) self.(lengths);
  p_anti_evidence ← anti_dic_score self hmm_model;
  let dic_score := PrimFloat.sub p_evidence p_anti_evidence in
  ret (dic_score, hmm_model).

Definition dic_iter (self : ModelSelector) (st : best) (n : Z) : M best :=
  try_except
    ('(score, model) ← dic_model self n;
     if py_gt score st.(best_score)
     then ret {| best_score := score; best_model := model;
                 best_num_states := n |}
     else ret st)
    (λ _, on_candidate_failure self st).

Definition SelectorDIC_select (self : ModelSelector) : M (option Model) :=
  try_except
    (fallback ← base_model self self.(n_constant);
     st ← for_each (py_range self.(min_n_components)
                             self.(max_n_components))
                   (dic_iter self)
                   {| best_num_states := 1; best_score := neg_infinity;
                      best_model := fallback |};
     when self.(verbose)
       (print (msg_created self.(this_word) st.(best_num_states)));;
     ret st.(best_model))
    (λ _, ret None).

(** ** [SelectorCV] *)

(** [sklearn.model_selection.KFold(n_splits).split(xs)] without shuffling:
    consecutive test blocks, the first [n_samples mod n_splits] of them one
    element longer; the training indices are all the others, in order. *)
Definition fold_sizes (n_splits n_samples : nat) : list nat :=
  map (λ i, n_samples / n_splits
            + (if i <? n_samples mod n_splits then 1 else 0))%nat
      (seq 0 n_splits).

Fixpoint kfold_from (current n_samples : nat) (sizes : list nat)
    : list (list nat * list nat) :=
  match sizes with
  | [] => []
  | fold_size :: rest =>
      let stop := (current + fold_size)%nat in
      let test_idx := seq current fold_size in
      let train_idx := seq 0 current ++ seq stop (n_samples - stop) in
      (train_idx, test_idx) :: kfold_from stop n_samples rest
  end.

Definition KFold_split (n_splits : Z) (n_samples : nat)
    : M (list (list nat * list nat)) :=
  if decide (n_splits ≤ 1)
  then raise (ValueError "k-fold cross-validation requires at least one train/test split")
  else if decide (Z.of_nat n_samples < n_splits)
  then raise (ValueError "Cannot have number of splits greater than the number of samples")
  else ret (kfold_from 0 n_samples (fold_sizes (Z.to_nat n_splits) n_samples)).

(** Modelled from the spec: [asl_utils.combine_sequences], which is not
    part of the sources at hand.  "A single concatenated observation array
    plus the list of component lengths, derived from a SequenceSet or a
    subset of it by index." *)
Definition combine_sequences (split_index_list : list nat)
    (sequences : list Xarr) : M (Xarr * list Z) :=
  sequences_fold ←
    for_each split_index_list
      (λ acc idx,
       match sequences !! idx with
       | Some sq => ret (acc ++ [sq])
       | None => raise (IndexError "list index out of range")
       end)
      [];
  ret (concat sequences_fold,
       map (λ sq : Xarr, Z.of_nat (length sq)) sequences_fold).

(** The locals [total_score], [folds] and [training_model] of the fold
    loop; [training_model] is unbound until the first fold has been fit. *)
Definition cv_fold (self : ModelSelector) (num_states : Z)
    (st : float * Z * option Model) (fold : list nat * list nat)
    : M (float * Z * option Model) :=
  let '(total_score, folds, _) := st in
  let '(cv_train_idx, cv_test_idx) := fold in
  let folds := folds + 1 in
  '(X_train, lengths_train) ← combine_sequences cv_train_idx self.(sequences);
  '(X_test, lengths_test) ← combine_sequences cv_test_idx self.(sequences);
  training_model ← lift (hmm_fit num_states self.(random_state)
                                 X_train lengths_train);
  score ← lift (hmm_score training_model X_test lengths_test);
  ret (PrimFloat.add total_score score, folds, Some training_model).

Definition cross_validation_model (self : ModelSelector) (num_states : Z)
    (n_splits : Z) : M (float * option Model) :=
  let total_score := 0%float in
  if decide (Z.of_nat (length self.(sequences)) > n_splits)
  then
    split ← KFold_split n_splits (length self.(sequences));
    '(total_score, folds, training_model) ←
      for_each split (cv_fold self num_states) (total_score, 0, None);
    avg_score ← py_truediv total_score folds;
    ret (avg_score, training_model)
  else
    fallback ← base_model self self.(n_constant);
    ret (0%float, fallback).

(** One iteration of the loop of [SelectorCV.select].  The source stores
    [n] in a fresh local [best_num_state], never read, so
    [best_num_states] keeps its initial value. *)
Definition cv_iter (self : ModelSelector) (st : best) (n : Z) : M best :=
  '(score, model) ← cross_validation_model self n 3;
  if py_ge score st.(best_score)
  then ret {| best_score := score; best_model := model;
              best_num_states := st.(best_num_states) |}
  else ret st.

Definition SelectorCV_select (self : ModelSelector) : M (option Model) :=
  let init := {| best_num_states := 0; best_score := neg_infinity;
                 best_model := None |} in
  try_except
    (st ← for_each (py_range self.(min_n_components)
                             self.(max_n_components))
                   (cv_iter self) init;
     ret st.(best_model))
    (λ e, print (exn_str e);; ret None).

(** ** The four strategies behind one [select] *)

Inductive strategy : Type := Constant | BIC | DIC | CV.

Definition select (k : strategy) (self : ModelSelector) : M (option Model) :=
  match k with
  | Constant => SelectorConstant_select self
  | BIC => SelectorBIC_select self
  | DIC => SelectorDIC_select self
  | CV => SelectorCV_select self
  end.

(** ** [recognize] *)

(** Modelled from the spec: [asl_data.SinglesData], which is not part of
    the sources at hand.  [get_all_Xlengths()] is "an ordered mapping from
    sequence-id to its combined (X, lengths) pair", here in insertion
    order. *)
Record SinglesData : Type := {
  get_all_Xlengths : list (Z * (Xarr * list Z));
}.

(** The locals [words_prob], [guess_word] and [best_score] of the inner
    loop. *)
Definition guess_state : Type := gmap string float * option string * float.

(** One iteration of the inner loop; a model object is truthy, [None] is
    falsy. *)
Definition recognize_word (test_X : Xarr) (test_Xlength : list Z)
    (st : guess_state) (item : string * option Model) : M guess_state :=
  let '(words_prob, guess_word, best_score) := st in
  let '(word, model) := item in
  try_except
    (match model with
     | Some m =>
         score ← lift (hmm_score m test_X test_Xlength);
         let words_prob := <[word := score]> words_prob in
         if py_gt score best_score
         then ret (words_prob, Some word, score)
         else ret (words_prob, guess_word, best_score)
     | None => ret st
     end)
    (λ _, ret st).

(** The body of the outer loop, for one test sequence. *)
Definition recognize_sequence (models : dict (option Model))
    (test : Xarr * list Z) : M (gmap string float * option string) :=
  let '(test_X, test_Xlength) := test in
  '(words_prob, guess_word, _) ←
    for_each models (recognize_word test_X test_Xlength)
             (∅, None, neg_infinity);
  ret (words_prob, guess_word).

Definition recognize (models : dict (option Model)) (test_set : SinglesData)
    : M (list (gmap string float) * list (option string)) :=
  let test_sequences := map snd test_set.(get_all_Xlengths) in
  for_each test_sequences
    (λ '(probabilities, guesses) test,
     '(words_prob, guess_word) ← recognize_sequence models test;
     ret (probabilities ++ [words_prob], guesses ++ [guess_word]))
    ([], []).

End Selectors.

(** * Specification-level definitions *)

(** ** The order of floats

    [SFcompare] orders the floats that are not NaN as the triples
    [sf_rank] under the lexicographic order [lex3]. *)

Definition sf_rank (f : spec_float) : Z * Z * Z :=
  match f with
  | S754_nan => (0, 0, 0)
  | S754_infinity true => (-2, 0, 0)
  | S754_infinity false => (2, 0, 0)
  | S754_zero _ => (0, 0, 0)
  | S754_finite true m e => (-1, - e, - Z.pos m)
  | S754_finite false m e => (1, e, Z.pos m)
  end.

Definition lex3 (a b : Z * Z * Z) : comparison :=
  let '(a1, a2, a3) := a in
  let '(b1, b2, b3) := b in
  match a1 ?= b1 with
  | Eq => match a2 ?= b2 with Eq => a3 ?= b3 | c => c end
  | c => c
  end.

Definition sf_is_nan (f : spec_float) : bool :=
  match f with S754_nan => true | _ => false end.

(** ** Keeping the best of a run of scores

    The three search loops and the recognizer keep a running best score
    and what it belongs to, replacing both when [cmp new best] holds. *)
Section Scan.
Context {K : Type} (cmp : float → float → bool).

Definition scan_step (b : float * option K) (x : K * float)
    : float * option K :=
  if cmp x.2 b.1 then (x.2, Some x.1) else b.

Definition scan (l : list (K * float)) (b : float * option K)
    : float * option K :=
  fold_left scan_step l b.

End Scan.

(** ** What a computation did *)

Definition returns {A} (m : M A) : Prop := ∃ out a, m = (out, inr a).
Definition raises {A} (m : M A) (e : exn) : Prop := ∃ out, m = (out, inl e).

Section SpecDefs.
Context `{Hmmlearn}.

(** The outcome of fitting [num_states] states on the word's own data. *)
Definition fitted (self : ModelSelector) (num_states : Z) : option Model :=
  match hmm_fit num_states self.(random_state) self.(X) self.(lengths) with
  | inr m => Some m
  | inl _ => None
  end.

(** The loops of [SelectorBIC.select] and [SelectorDIC.select] differ
    only in the candidate they evaluate; [search_iter] and [search_select]
    are the two, over that candidate. *)
Definition search_iter (cand : Z → M (float * option Model))
    (self : ModelSelector) (st : best) (n : Z) : M best :=
  try_except
    ('(score, model) ← cand n;
     if py_gt score st.(best_score)
     then ret {| best_num_states := n; best_score := score;
                 best_model := model |}
     else ret st)
    (λ _, on_candidate_failure self st).

Definition search_select (cand : Z → M (float * option Model))
    (self : ModelSelector) : M (option Model) :=
  try_except
    (fallback ← base_model self self.(n_constant);
     st ← for_each (py_range self.(min_n_components)
                             self.(max_n_components))
                   (search_iter cand self)
                   {| best_num_states := 1; best_score := neg_infinity;
                      best_model := fallback |};
     when self.(verbose)
       (print (msg_created self.(this_word) st.(best_num_states)));;
     ret st.(best_model))
    (λ _, ret None).

(** The candidates the loops run over. *)
Definition candidates (self : ModelSelector) : list Z :=
  py_range self.(min_n_components) self.(max_n_components).

Definition search_init (self : ModelSelector) : best :=
  {| best_num_states := 1; best_score := neg_infinity;
     best_model := fitted self self.(n_constant) |}.

(** What an iteration leaves in the locals when it completes. *)
Definition keep (st : best) (n : Z) (r : exn + (float * option Model))
    : best :=
  match r with
  | inr (score, model) =>
      if py_gt score st.(best_score)
      then {| best_num_states := n; best_score := score;
              best_model := model |}
      else st
  | inl _ => st
  end.

(** The candidates of a range that were evaluated without failure, in
    order, each with its criterion value. *)
Definition scored (cand : Z → M (float * option Model)) (l : list Z)
    : list ((Z * option Model) * float) :=
  omap (λ n, match (cand n).2 with
             | inr (score, model) => Some ((n, model), score)
             | inl _ => None
             end) l.

(** The locals, read off the running best of [scan]. *)
Definition unscan (n0 : Z) (fallback : option Model)
    (sc : float * option (Z * option Model)) : best :=
  match sc.2 with
  | Some (n, model) =>
      {| best_num_states := n; best_score := sc.1; best_model := model |}
  | None =>
      {| best_num_states := n0; best_score := sc.1; best_model := fallback |}
  end.

(** Fold [fold] of candidate [n] runs to its end: both index lists are
    combined, the model [m] is fit on the training part and scores [s] on
    the test part. *)
Definition fold_runs (self : ModelSelector) (n : Z)
    (fold : list nat * list nat) (m : Model) (s : float) : Prop :=
  ∃ X_train lengths_train X_test lengths_test,
    combine_sequences fold.1 self.(sequences) = ret (X_train, lengths_train) ∧
    combine_sequences fold.2 self.(sequences) = ret (X_test, lengths_test) ∧
    hmm_fit n self.(random_state) X_train lengths_train = inr m ∧
    hmm_score m X_test lengths_test = inr s.

(** The locals of [SelectorCV.select] before the loop. *)
Definition cv_init : best :=
  {| best_num_states := 0; best_score := neg_infinity; best_model := None |}.

(** What an iteration of [SelectorCV.select] leaves in the locals. *)
Definition keep_ge (st : best) (r : float * option Model) : best :=
  if py_ge r.1 st.(best_score)
  then {| best_num_states := st.(best_num_states); best_score := r.1;
          best_model := r.2 |}
  else st.

Definition cv_unscan (sc : float * option (Z * option Model)) : best :=
  {| best_num_states := 0; best_score := sc.1;
     best_model := match sc.2 with Some (_, model) => model | None => None end |}.

(** The words whose model scored the test sequence, each with its score,
    in the order of the dictionary. *)
Definition scored_words (models : dict (option Model)) (test_X : Xarr)
    (test_Xlength : list Z) : list (string * float) :=
  omap (λ item : string * option Model,
        match item.2 with
        | Some m =>
            match hmm_score m test_X test_Xlength with
            | inr score => Some (item.1, score)
            | inl _ => None
            end
        | None => None
        end) models.

(** The score map and the guess for one test sequence. *)
Definition sequence_result (models : dict (option Model))
    (test : Xarr * list Z) : gmap string float * option string :=
  let sw := scored_words models test.1 test.2 in
  (fold_left (λ wp (x : string * float), <[x.1 := x.2]> wp) sw ∅,
   (scan py_gt sw (neg_infinity, None)).2).

End SpecDefs.

(** ** A deterministic stand-in for hmmlearn

    A model remembers its number of states and the data it was fitted on;
    which state counts fail to fit and what a model scores are tables. *)
Module Fake.

Record model : Type := { states : Z; trained_on : Xarr }.

(** [math.log] on the few row counts the examples use: [log 2] is
    0.6931471805599453, [log 3] is 1.0986122886681098 and [log 4] is
    1.3862943611198906. *)
Definition log (n : Z) : float :=
  match n with
  | 1 => 0
  | 2 => 0x1.62e42fefa39efp-1
  | 3 => 0x1.193ea7aad030bp+0
  | 4 => 0x1.62e42fefa39efp+0
  | _ => nan
  end%float.

Definition transmat_error : exn :=
  ValueError "rows of transmat_ must sum to 1.0".

Definition hmm (fit_fails : Z → bool) (score : model → Xarr → exn + float)
    : Hmmlearn :=
  {| Model := model;
     hmm_fit n _ X _ :=
       if fit_fails n then inl transmat_error
       else inr {| states := n; trained_on := X |};
     hmm_score m X _ := score m X;
     libm_log := log |}.

(** Two words: BOOK with four one-frame sequences, CAR with one sequence
    of two frames; one feature per frame. *)
Definition book_sequences : list Xarr :=
  [[[1%float]]; [[2%float]]; [[3%float]]; [[4%float]]].
Definition book_X : Xarr := [[1%float]; [2%float]; [3%float]; [4%float]].
Definition car_sequences : list Xarr := [[[7%float]; [9%float]]].
Definition car_X : Xarr := [[7%float]; [9%float]].

Definition all_word_sequences : dict (list Xarr) :=
  [("BOOK", book_sequences); ("CAR", car_sequences)].
Definition all_word_Xlengths : dict (Xarr * list Z) :=
  [("BOOK", (book_X, [1; 1; 1; 1])); ("CAR", (car_X, [2]))].

(** The selector for BOOK that [__init__] builds from the two words. *)
Definition book (n_constant min_n_components max_n_components : Z)
    (verbose : bool) : ModelSelector :=
  {| words := all_word_sequences; hwords := all_word_Xlengths;
     sequences := book_sequences; X := book_X; lengths := [1; 1; 1; 1];
     this_word := "BOOK"; n_constant := n_constant;
     min_n_components := min_n_components;
     max_n_components := max_n_components;
     random_state := 14; verbose := verbose |}.

(** No fit succeeds with three states. *)
Definition three_fails (n : Z) : bool := bool_decide (n = 3).

(** A model scores [-12.5] on four frames and [-20] on anything else. *)
Definition by_rows (m : model) (X : Xarr) : exn + float :=
  if decide (length X = 4%nat) then inr (-12.5)%float else inr (-20)%float.

(** Every model scores [-5]. *)
Definition flat (m : model) (X : Xarr) : exn + float := inr (-5)%float.

(** No model can score. *)
Definition degenerate (m : model) (X : Xarr) : exn + float :=
  inl (ValueError "startprob_ must sum to 1.0").

(** A model scores by its number of states: [-12.5] with two states,
    nothing with four, [-20] otherwise. *)
Definition by_states (m : model) (X : Xarr) : exn + float :=
  if decide (m.(states) = 2) then inr (-12.5)%float
  else if decide (m.(states) = 4)
       then inl (ValueError "startprob_ must sum to 1.0")
       else inr (-20)%float.

Definition never_fails (n : Z) : bool := false.

(** The stand-ins the examples run on. *)
Definition hmm_rows3 : Hmmlearn := hmm three_fails by_rows.
Definition hmm_flat3 : Hmmlearn := hmm three_fails flat.
Definition hmm_degenerate3 : Hmmlearn := hmm three_fails degenerate.
Definition hmm_flat : Hmmlearn := hmm never_fails flat.
Definition hmm_states : Hmmlearn := hmm never_fails by_states.

(** The selector for CAR, a word with a single sequence. *)
Definition car (n_constant min_n_components max_n_components : Z)
    (verbose : bool) : ModelSelector :=
  {| words := all_word_sequences; hwords := all_word_Xlengths;
     sequences := car_sequences; X := car_X; lengths := [2];
     this_word := "CAR"; n_constant := n_constant;
     min_n_components := min_n_components;
     max_n_components := max_n_components;
     random_state := 14; verbose := verbose |}.

(** The model with [n] states fitted on all of BOOK, and the one fitted
    on the training part of the third fold of BOOK. *)
Definition on_book (n : Z) : model := {| states := n; trained_on := book_X |}.
Definition on_fold3 (n : Z) : model :=
  {| states := n; trained_on := [[1%float]; [2%float]; [3%float]] |}.

(** A dictionary of models for the recognizer: CAR has no model, the
    model of JOHN cannot score. *)
Definition some_models : dict (option model) :=
  [("BOOK", Some (on_book 2)); ("CAR", None);
   ("JOHN", Some (on_book 4)); ("MARY", Some (on_book 3))].

End Fake.

(** ** Two readings of the error policy, as statements about the code *)

Section Policies.
Context `{Hmmlearn}.



(** The state counts a strategy tries, and what it is for one of them to
    be fit: for [SelectorCV] the candidate comes back from
    cross-validation with a model. *)
Definition searched (k : strategy) (self : ModelSelector) : list Z :=
  match k with
  | Constant => [self.(n_constant)]
  | BIC | DIC | CV => candidates self
  end.

Definition fits (k : strategy) (self : ModelSelector) (n : Z) : Prop :=
  match k with
  | CV => ∃ out s m, cross_validation_model self n 3 = (out, inr (s, Some m))
  | Constant | BIC | DIC => is_Some (fitted self n)
  end.

(** "If at least one candidate model in the search fits successfully,
    [select] returns a model." *)
Definition a_fit_gives_a_model : Prop :=
  ∀ k self,
    (∃ n, n ∈ searched k self ∧ fits k self n) →
    ∃ m, (select k self).2 = inr (Some m).

End Policies.

(** ** The same selector with another [verbose] flag *)

Definition with_verbose (b : bool) (self : ModelSelector) : ModelSelector :=
  {| words := self.(words); hwords := self.(hwords);
     sequences := self.(sequences); X := self.(X);
     lengths := self.(lengths); this_word := self.(this_word);
     n_constant := self.(n_constant);
     min_n_components := self.(min_n_components);
     max_n_components := self.(max_n_components);
     random_state := self.(random_state); verbose := b |}.

(** A corpus with the single word BOOK, and its selector. *)
Module Lonely.

Definition all_word_sequences : dict (list Xarr) :=
  [("BOOK", Fake.book_sequences)].
Definition all_word_Xlengths : dict (Xarr * list Z) :=
  [("BOOK", (Fake.book_X, [1; 1; 1; 1]))].

Definition book (n_constant min_n_components max_n_components : Z)
    (verbose : bool) : ModelSelector :=
  {| words := all_word_sequences; hwords := all_word_Xlengths;
     sequences := Fake.book_sequences; X := Fake.book_X;
     lengths := [1; 1; 1; 1]; this_word := "BOOK";
     n_constant := n_constant; min_n_components := min_n_components;
     max_n_components := max_n_components;
     random_state := 14; verbose := verbose |}.

End Lonely.

(** A selector for a word without a single frame. *)
Module Edge.

Definition no_frames (verbose : bool) : ModelSelector :=
  {| words := [("BOOK", [])]; hwords := [("BOOK", ([], []))];
     sequences := []; X := []; lengths := []; this_word := "BOOK";
     n_constant := 3; min_n_components := 2; max_n_components := 4;
     random_state := 14; verbose := verbose |}.

End Edge.

(** ** A reading of "the guess is the word with the highest score" *)

Section RecognizerPolicy.
Context `{Hmmlearn}.


End RecognizerPolicy.

(** A stand-in whose models give every sequence the log-likelihood
    [-inf], and a test set of one sequence. *)
Module Limits.






End Limits.

(** * Lemmas *)

Module FloatOrder.

Lemma SFcompare_rank x y :
  sf_is_nan x = false → sf_is_nan y = false →
  SFcompare x y = Some (lex3 (sf_rank x) (sf_rank y)).
Proof.
  destruct x as [[]|[]| |[] m1 e1], y as [[]|[]| |[] m2 e2];
    try discriminate; intros _ _; try reflexivity;
    cbn [SFcompare sf_rank lex3]; f_equal;
    rewrite Pos.compare_cont_spec, (Z.compare_refl _); cbn [Pos.switch_Eq].
  destruct (Z.compare_spec e1 e2), (Z.compare_spec (- e1) (- e2));
      try lia; try reflexivity.
    destruct (Pos.compare_spec m1 m2),
      (Z.compare_spec (- Z.pos m1) (- Z.pos m2)); try lia; reflexivity.
Qed.

Lemma lex3_le_iff a1 a2 a3 b1 b2 b3 :
  lex3 (a1, a2, a3) (b1, b2, b3) ≠ Gt ↔
  a1 < b1 ∨ (a1 = b1 ∧ (a2 < b2 ∨ (a2 = b2 ∧ a3 ≤ b3))).
Proof.
  unfold lex3.
  destruct (Z.compare_spec a1 b1), (Z.compare_spec a2 b2),
    (Z.compare_spec a3 b3); split; intros; try congruence; try lia.
Qed.

Lemma lex3_le_trans a b c :
  lex3 a b ≠ Gt → lex3 b c ≠ Gt → lex3 a c ≠ Gt.
Proof.
  destruct a as [[a1 a2] a3], b as [[b1 b2] b3], c as [[c1 c2] c3].
  rewrite !lex3_le_iff. lia.
Qed.

Lemma lex3_antisym a b : lex3 b a = CompOpp (lex3 a b).
Proof.
  destruct a as [[a1 a2] a3], b as [[b1 b2] b3]. unfold lex3.
  rewrite (Z.compare_antisym a1 b1), (Z.compare_antisym a2 b2),
    (Z.compare_antisym a3 b3).
  destruct (a1 ?= b1), (a2 ?= b2), (a3 ?= b3); reflexivity.
Qed.

Lemma Prim2SF_nan x : sf_is_nan (Prim2SF x) = PrimFloat.is_nan x.
Proof.
  unfold PrimFloat.is_nan. rewrite FloatAxioms.eqb_spec. unfold SFeqb.
  destruct (Prim2SF x) as [[]|[]| |[] m e]; cbn; try reflexivity;
    rewrite Z.compare_refl, Pos.compare_cont_refl; reflexivity.
Qed.

(** On floats that are not NaN, [>] and [>=] are the strict and the large
    side of one total preorder. *)
Lemma py_gt_false_ge a b :
  is_nan a = false → is_nan b = false → py_gt a b = false → py_ge b a = true.
Proof.
  rewrite <- !Prim2SF_nan. unfold py_gt, py_ge. rewrite ltb_spec, leb_spec.
  unfold SFltb, SFleb. intros Ha Hb.
  rewrite (SFcompare_rank _ _ Hb Ha), (SFcompare_rank _ _ Ha Hb).
  rewrite (lex3_antisym (sf_rank (Prim2SF a))).
  destruct (lex3 _ _); cbn; congruence.
Qed.

Lemma py_gt_ge a b : py_gt a b = true → py_ge a b = true.
Proof.
  unfold py_gt, py_ge. rewrite ltb_spec, leb_spec. unfold SFltb, SFleb.
  destruct (SFcompare _ _) as [[]|]; congruence.
Qed.

Lemma py_ge_not_nan a b :
  py_ge a b = true → is_nan a = false ∧ is_nan b = false.
Proof.
  rewrite <- !Prim2SF_nan. unfold py_ge. rewrite leb_spec. unfold SFleb.
  destruct (Prim2SF b) as [[]|[]| |[] ? ?], (Prim2SF a) as [[]|[]| |[] ? ?];
    cbn; try discriminate; auto.
Qed.

Lemma py_ge_trans a b c :
  py_ge a b = true → py_ge b c = true → py_ge a c = true.
Proof.
  intros Hab Hbc.
  destruct (py_ge_not_nan _ _ Hab) as [Ha Hb].
  destruct (py_ge_not_nan _ _ Hbc) as [_ Hc].
  revert Hab Hbc Ha Hb Hc. rewrite <- !Prim2SF_nan. unfold py_ge.
  rewrite !leb_spec. unfold SFleb. intros Hab Hbc Ha Hb Hc.
  rewrite (SFcompare_rank _ _ Hb Ha) in Hab.
  rewrite (SFcompare_rank _ _ Hc Hb) in Hbc.
  rewrite (SFcompare_rank _ _ Hc Ha).
  pose proof (lex3_le_trans (sf_rank (Prim2SF c)) (sf_rank (Prim2SF b))
                (sf_rank (Prim2SF a))) as Ht.
  destruct (lex3 (sf_rank (Prim2SF c)) (sf_rank (Prim2SF b))),
    (lex3 (sf_rank (Prim2SF b)) (sf_rank (Prim2SF a))),
    (lex3 (sf_rank (Prim2SF c)) (sf_rank (Prim2SF a)));
    try discriminate; try reflexivity; exfalso; apply Ht; congruence.
Qed.

Lemma py_ge_neg_infinity a : is_nan a = false → py_ge a neg_infinity = true.
Proof.
  rewrite <- Prim2SF_nan. unfold py_ge. rewrite leb_spec.
  change (Prim2SF neg_infinity) with (S754_infinity true).
  destruct (Prim2SF a) as [[]|[]| |[] ? ?]; cbn; congruence.
Qed.

Lemma py_gt_neg_infinity a :
  is_nan a = false → a ≠ neg_infinity → py_gt a neg_infinity = true.
Proof.
  rewrite <- Prim2SF_nan. unfold py_gt. rewrite ltb_spec. intros Hn Hne.
  assert (Prim2SF a ≠ S754_infinity true) as Hne'.
  { intros E. apply Hne. apply Prim2SF_inj. exact E. }
  revert Hn Hne'. change (Prim2SF neg_infinity) with (S754_infinity true).
  destruct (Prim2SF a) as [[]|[]| |[] ? ?]; cbn; congruence.
Qed.

Lemma lex3_lt_iff a1 a2 a3 b1 b2 b3 :
  lex3 (a1, a2, a3) (b1, b2, b3) = Lt ↔
  a1 < b1 ∨ (a1 = b1 ∧ (a2 < b2 ∨ (a2 = b2 ∧ a3 < b3))).
Proof.
  unfold lex3.
  destruct (Z.compare_spec a1 b1), (Z.compare_spec a2 b2),
    (Z.compare_spec a3 b3); split; intros; try congruence; try lia.
Qed.

(** [>=] and [>] read on the ranks. *)
Lemma py_ge_rank a b :
  py_ge a b = true ↔
  is_nan a = false ∧ is_nan b = false ∧
  lex3 (sf_rank (Prim2SF b)) (sf_rank (Prim2SF a)) ≠ Gt.
Proof.
  split.
  - intros Hge. destruct (py_ge_not_nan _ _ Hge) as [Ha Hb].
    split; [exact Ha|]. split; [exact Hb|].
    revert Hge. unfold py_ge. rewrite leb_spec. unfold SFleb.
    rewrite <- Prim2SF_nan in Ha, Hb. rewrite (SFcompare_rank _ _ Hb Ha).
    destruct (lex3 _ _); congruence.
  - intros (Ha & Hb & Hle). unfold py_ge. rewrite leb_spec. unfold SFleb.
    rewrite <- Prim2SF_nan in Ha, Hb. rewrite (SFcompare_rank _ _ Hb Ha).
    destruct (lex3 _ _); congruence.
Qed.

Lemma py_gt_rank a b :
  py_gt a b = true ↔
  is_nan a = false ∧ is_nan b = false ∧
  lex3 (sf_rank (Prim2SF b)) (sf_rank (Prim2SF a)) = Lt.
Proof.
  split.
  - intros Hgt. destruct (py_ge_not_nan _ _ (py_gt_ge _ _ Hgt)) as [Ha Hb].
    split; [exact Ha|]. split; [exact Hb|].
    revert Hgt. unfold py_gt. rewrite ltb_spec. unfold SFltb.
    rewrite <- Prim2SF_nan in Ha, Hb. rewrite (SFcompare_rank _ _ Hb Ha).
    destruct (lex3 _ _); congruence.
  - intros (Ha & Hb & Hlt). unfold py_gt. rewrite ltb_spec. unfold SFltb.
    rewrite <- Prim2SF_nan in Ha, Hb. rewrite (SFcompare_rank _ _ Hb Ha).
    rewrite Hlt. reflexivity.
Qed.

Lemma py_ge_refl a : is_nan a = false → py_ge a a = true.
Proof.
  intros Ha. apply py_ge_rank. split; [exact Ha|]. split; [exact Ha|].
  destruct (sf_rank (Prim2SF a)) as [[a1 a2] a3]. apply lex3_le_iff. lia.
Qed.

Lemma py_gt_not_ge a b : py_gt a b = true → py_ge b a = false.
Proof.
  intros Hgt. destruct (py_ge b a) eqn:Hge; [|reflexivity]. exfalso.
  apply py_gt_rank in Hgt as (_ & _ & Hlt).
  apply py_ge_rank in Hge as (_ & _ & Hle). revert Hlt Hle.
  destruct (sf_rank (Prim2SF a)) as [[a1 a2] a3],
    (sf_rank (Prim2SF b)) as [[b1 b2] b3].
  rewrite lex3_lt_iff, lex3_le_iff. lia.
Qed.

Lemma py_ge_gt_trans a b c :
  py_ge a b = true → py_gt b c = true → py_gt a c = true.
Proof.
  intros Hab Hbc.
  apply py_ge_rank in Hab as (Ha & Hb & Hab).
  apply py_gt_rank in Hbc as (_ & Hc & Hbc).
  apply py_gt_rank. split; [exact Ha|]. split; [exact Hc|]. revert Hab Hbc.
  destruct (sf_rank (Prim2SF a)) as [[a1 a2] a3],
    (sf_rank (Prim2SF b)) as [[b1 b2] b3],
    (sf_rank (Prim2SF c)) as [[c1 c2] c3].
  rewrite !lex3_lt_iff, lex3_le_iff. lia.
Qed.

Lemma py_gt_ge_trans a b c :
  py_gt a b = true → py_ge b c = true → py_gt a c = true.
Proof.
  intros Hab Hbc.
  apply py_gt_rank in Hab as (Ha & Hb & Hab).
  apply py_ge_rank in Hbc as (_ & Hc & Hbc).
  apply py_gt_rank. split; [exact Ha|]. split; [exact Hc|]. revert Hab Hbc.
  destruct (sf_rank (Prim2SF a)) as [[a1 a2] a3],
    (sf_rank (Prim2SF b)) as [[b1 b2] b3],
    (sf_rank (Prim2SF c)) as [[c1 c2] c3].
  rewrite !lex3_lt_iff, lex3_le_iff. lia.
Qed.

End FloatOrder.

Section ScanLemmas.
Context {K : Type}.
Implicit Types (l pre post : list (K * float)) (b : float) (g : option K).

Lemma scan_snoc cmp l x (st : float * option K) :
  scan cmp (l ++ [x]) st = scan_step cmp (scan cmp l st) x.
Proof. unfold scan. now rewrite fold_left_app. Qed.

Lemma gt_beaten_ge y x b :
  py_gt y b = false → py_gt x b = true → py_ge y x = false.
Proof.
  intros Hy Hx. destruct (py_ge y x) eqn:E; [|reflexivity].
  rewrite (FloatOrder.py_ge_gt_trans _ _ _ E Hx) in Hy. discriminate.
Qed.

Lemma ge_beaten_gt y x b :
  py_ge y b = false → py_ge x b = true → py_gt y x = false.
Proof.
  intros Hy Hx. destruct (py_gt y x) eqn:E; [|reflexivity].
  rewrite (FloatOrder.py_gt_ge _ _ (FloatOrder.py_gt_ge_trans _ _ _ E Hx))
    in Hy. discriminate.
Qed.

Lemma not_ge_not_gt y b : py_ge y b = false → py_gt y b = false.
Proof.
  intros Hy. destruct (py_gt y b) eqn:E; [|reflexivity].
  rewrite (FloatOrder.py_gt_ge _ _ E) in Hy. discriminate.
Qed.

(** With [>], the survivor is the first score that nothing beats: every
    earlier score fails [>=] against it, no later score is [>] it. *)
Lemma scan_gt_spec l b0 g0 b g :
  scan py_gt l (b0, g0) = (b, g) →
  ((b, g) = (b0, g0) ∧ Forall (λ x, py_gt x.2 b0 = false) l)
  ∨ (∃ pre k post,
       l = pre ++ (k, b) :: post ∧ g = Some k ∧ py_gt b b0 = true ∧
       Forall (λ x, py_ge x.2 b = false) pre ∧
       Forall (λ x, py_gt x.2 b = false) post).
Proof.
  revert b g. induction l as [|x l IH] using rev_ind; intros b g.
  - cbn. intros [= <- <-]. left. split; [reflexivity|constructor].
  - rewrite scan_snoc. destruct (scan py_gt l (b0, g0)) as [b' g'] eqn:El.
    specialize (IH b' g' eq_refl). unfold scan_step. cbn [fst snd].
    destruct (py_gt x.2 b') eqn:Hx; intros [= <- <-].
    + right. exists l, x.1, []. destruct x as [k s]; cbn [fst snd] in *.
      split; [reflexivity|]. split; [reflexivity|].
      destruct IH as [[[= -> ->] Hall]|(pre & k' & post & -> & -> & Hb & Hpre & Hpost)].
      * split; [exact Hx|]. split; [|constructor].
        eapply Forall_impl; [exact Hall|]. intros y Hy; cbv beta in Hy |- *.
        eapply gt_beaten_ge; eauto.
      * split; [eapply FloatOrder.py_gt_ge_trans;
                [exact Hx|apply FloatOrder.py_gt_ge, Hb]|].
        split; [|constructor].
        apply Forall_app. split.
        -- eapply Forall_impl; [exact Hpre|]. intros y Hy; cbv beta in Hy |- *.
           eapply gt_beaten_ge; [apply not_ge_not_gt, Hy|exact Hx].
        -- constructor; [apply FloatOrder.py_gt_not_ge, Hx|].
           eapply Forall_impl; [exact Hpost|]. intros y Hy; cbv beta in Hy |- *.
           eapply gt_beaten_ge; eauto.
    + destruct IH as [[[= -> ->] Hall]|(pre & k' & post & -> & -> & Hb & Hpre & Hpost)].
      * left. split; [reflexivity|]. apply Forall_app. split; [exact Hall|].
        constructor; [exact Hx|constructor].
      * right. exists pre, k', (post ++ [x]).
        split; [now rewrite <- app_assoc|]. split; [reflexivity|].
        split; [exact Hb|]. split; [exact Hpre|].
        apply Forall_app. split; [exact Hpost|].
        constructor; [exact Hx|constructor].
Qed.

(** With [>=], the survivor is the last score that nothing beats: no
    earlier score is [>] it, every later score fails [>=] against it. *)
Lemma scan_ge_spec l b0 g0 b g :
  scan py_ge l (b0, g0) = (b, g) →
  ((b, g) = (b0, g0) ∧ Forall (λ x, py_ge x.2 b0 = false) l)
  ∨ (∃ pre k post,
       l = pre ++ (k, b) :: post ∧ g = Some k ∧ py_ge b b0 = true ∧
       Forall (λ x, py_gt x.2 b = false) pre ∧
       Forall (λ x, py_ge x.2 b = false) post).
Proof.
  revert b g. induction l as [|x l IH] using rev_ind; intros b g.
  - cbn. intros [= <- <-]. left. split; [reflexivity|constructor].
  - rewrite scan_snoc. destruct (scan py_ge l (b0, g0)) as [b' g'] eqn:El.
    specialize (IH b' g' eq_refl). unfold scan_step. cbn [fst snd].
    destruct (py_ge x.2 b') eqn:Hx; intros [= <- <-].
    + right. exists l, x.1, []. destruct x as [k s]; cbn [fst snd] in *.
      split; [reflexivity|]. split; [reflexivity|].
      destruct IH as [[[= -> ->] Hall]|(pre & k' & post & -> & -> & Hb & Hpre & Hpost)].
      * split; [exact Hx|]. split; [|constructor].
        eapply Forall_impl; [exact Hall|]. intros y Hy; cbv beta in Hy |- *.
        eapply ge_beaten_gt; eauto.
      * split; [eapply FloatOrder.py_ge_trans; eauto|].
        split; [|constructor].
        apply Forall_app. split.
        -- eapply Forall_impl; [exact Hpre|]. intros y Hy; cbv beta in Hy |- *.
           destruct (py_gt y.2 s) eqn:E; [|reflexivity].
           rewrite (FloatOrder.py_gt_ge_trans _ _ _ E Hx) in Hy. discriminate.
        -- constructor.
           { cbn [snd]. destruct (py_gt b' s) eqn:E; [|reflexivity].
             rewrite (FloatOrder.py_gt_not_ge _ _ E) in Hx. discriminate. }
           eapply Forall_impl; [exact Hpost|]. intros y Hy; cbv beta in Hy |- *.
           eapply ge_beaten_gt; eauto.
    + destruct IH as [[[= -> ->] Hall]|(pre & k' & post & -> & -> & Hb & Hpre & Hpost)].
      * left. split; [reflexivity|]. apply Forall_app. split; [exact Hall|].
        constructor; [exact Hx|constructor].
      * right. exists pre, k', (post ++ [x]).
        split; [now rewrite <- app_assoc|]. split; [reflexivity|].
        split; [exact Hb|]. split; [exact Hpre|].
        apply Forall_app. split; [exact Hpost|].
        constructor; [exact Hx|constructor].
Qed.

End ScanLemmas.

(** ** The monad *)

Section MonadLemmas.
Context {A B : Type}.

Lemma res_bind (m : M A) (k : A → M B) :
  (m ≫= k).2 = match m.2 with inl e => inl e | inr a => (k a).2 end.
Proof.
  unfold mbind, M_bind, bind. destruct m as [out [e|a]]; cbn; [reflexivity|].
  destruct (k a); reflexivity.
Qed.


Lemma res_try (m : M A) (h : exn → M A) :
  (try_except m h).2 = match m.2 with inl e => (h e).2 | inr a => inr a end.
Proof.
  unfold try_except. destruct m as [out [e|a]]; cbn; [|reflexivity].
  destruct (h e); reflexivity.
Qed.

Lemma out_try (m : M A) (h : exn → M A) :
  (try_except m h).1 = match m.2 with inl e => m.1 ++ (h e).1 | inr a => m.1 end.
Proof.
  unfold try_except. destruct m as [out [e|a]]; cbn; [|reflexivity].
  destruct (h e); reflexivity.
Qed.

Lemma returns_res (m : M A) : returns m ↔ ∃ a, m.2 = inr a.
Proof.
  split.
  - intros (out & a & ->). now exists a.
  - intros [a Ha]. destruct m as [out r]. cbn in Ha. subst. now exists out, a.
Qed.

Lemma try_except_returns (m : M A) (h : exn → M A) :
  (∀ e, returns (h e)) → returns (try_except m h).
Proof.
  intros Hh. apply returns_res. rewrite res_try.
  destruct m.2 as [e|a]; [|now exists a]. apply returns_res, Hh.
Qed.

End MonadLemmas.

Lemma M_eta {A} (m : M A) : m = (m.1, m.2).
Proof. now destruct m. Qed.

Lemma res_when (c : bool) (s : string) : (when c (print s)).2 = inr ().
Proof. now destruct c. Qed.

(** A loop whose body always completes is a fold. *)
Lemma res_for_each_fold {S E} (body : S → E → M S) (f : S → E → S) l s :
  (∀ s x, (body s x).2 = inr (f s x)) →
  (for_each l body s).2 = inr (fold_left f l s).
Proof.
  intros Hbody. revert s. induction l as [|x l IH]; intros s; [reflexivity|].
  cbn [for_each fold_left]. rewrite res_bind, Hbody. apply IH.
Qed.

Lemma py_range_empty a b : b ≤ a → py_range a b = [].
Proof.
  intros Hle. unfold py_range. now replace (Z.to_nat (b - a)) with 0%nat by lia.
Qed.

(** ** Building a candidate never raises *)

Section SelectorLemmas.
Context `{Hmmlearn}.
Implicit Types (self : ModelSelector) (n : Z) (st : best).

Lemma base_model_res self n : (base_model self n).2 = inr (fitted self n).
Proof.
  unfold base_model, fitted. rewrite res_try, res_bind. unfold lift. cbn [snd].
  destruct (hmm_fit _ _ _ _) as [e|m];
    now rewrite res_bind, res_when.
Qed.

Lemma base_model_returns self n : returns (base_model self n).
Proof. apply returns_res. eexists. apply base_model_res. Qed.

(** C9: for each of the four strategies, [select] completes with a value,
    a model or [None]; no fit or score failure leaves it as an
    exception. *)
Theorem select_never_raises (k : strategy) self : returns (select k self).
Proof.
  destruct k; cbn [select].
  - apply base_model_returns.
  - apply try_except_returns. intros e. now exists [], None.
  - apply try_except_returns. intros e. now exists [], None.
  - apply try_except_returns. intros e. now exists [exn_str e], None.
Qed.

End SelectorLemmas.

(** ** The search loops of BIC and DIC *)

Section SearchLemmas.
Context `{Hmmlearn}.
Implicit Types (self : ModelSelector) (n : Z) (st : best).
Implicit Types (cand : Z → M (float * option Model)).

Lemma bic_iter_search self : bic_iter self = search_iter (bic_model self) self.
Proof. reflexivity. Qed.

Lemma dic_iter_search self : dic_iter self = search_iter (dic_model self) self.
Proof. reflexivity. Qed.

(** With [verbose] off the handler is [pass]: a failing candidate leaves
    the locals as they were. *)
Lemma search_iter_quiet cand self st n :
  self.(verbose) = false →
  (search_iter cand self st n).2 = inr (keep st n (cand n).2).
Proof.
  intros Hv. unfold search_iter, on_candidate_failure, keep.
  rewrite res_try, res_bind, Hv.
  destruct (cand n).2 as [e|[score model]]; [reflexivity|].
  now destruct (py_gt score (best_score st)).
Qed.

(** With [verbose] on the handler raises [NameError] itself. *)
Lemma search_iter_verbose cand self st n :
  self.(verbose) = true →
  (search_iter cand self st n).2 =
  match (cand n).2 with
  | inl _ => inl (NameError "num_states")
  | inr r => inr (keep st n (inr r))
  end.
Proof.
  intros Hv. unfold search_iter, on_candidate_failure, keep.
  rewrite res_try, res_bind, Hv.
  destruct (cand n).2 as [e|[score model]]; [reflexivity|].
  now destruct (py_gt score (best_score st)).
Qed.

Lemma search_loop_quiet cand self l st :
  self.(verbose) = false →
  (for_each l (search_iter cand self) st).2 =
  inr (fold_left (λ st n, keep st n (cand n).2) l st).
Proof.
  intros Hv. apply res_for_each_fold. intros. now apply search_iter_quiet.
Qed.

Lemma search_loop_verbose_fails cand self l st n e :
  self.(verbose) = true → n ∈ l → (cand n).2 = inl e →
  (for_each l (search_iter cand self) st).2 = inl (NameError "num_states").
Proof.
  intros Hv Hin He. revert st.
  induction l as [|x l IH]; intros st; [now apply elem_of_nil in Hin|].
  cbn [for_each]. rewrite res_bind, (search_iter_verbose _ _ _ _ Hv).
  destruct (cand x).2 as [e'|r] eqn:Ex; [reflexivity|].
  apply IH. apply elem_of_cons in Hin as [->|Hin]; [congruence|exact Hin].
Qed.

Lemma fold_keep_scan cand n0 fb l sc :
  fold_left (λ st n, keep st n (cand n).2) l (unscan n0 fb sc) =
  unscan n0 fb (scan py_gt (scored cand l) sc).
Proof.
  unfold scan. revert sc. induction l as [|x l IH]; intros sc; [reflexivity|].
  cbn [fold_left scored omap list_omap].
  destruct (cand x).2 as [e|[score model]] eqn:Ex; cbn [keep].
  - apply IH.
  - cbn [fold_left]. rewrite <- IH. f_equal.
    unfold scan_step. cbn [fst snd].
    replace (best_score (unscan n0 fb sc)) with sc.1
      by (unfold unscan; now destruct sc.2 as [[? ?]|]).
    now destruct (py_gt score sc.1).
Qed.

Lemma elem_of_scored cand l n model score :
  ((n, model), score) ∈ scored cand l ↔
  n ∈ l ∧ (cand n).2 = inr (score, model).
Proof.
  unfold scored. rewrite list_elem_of_omap. split.
  - intros (x & Hx & Hsome).
    destruct (cand x).2 as [e|[s m]] eqn:Ex; [discriminate|].
    injection Hsome as <- <- <-. now split.
  - intros [Hin Hc]. exists n. split; [exact Hin|]. now rewrite Hc.
Qed.

End SearchLemmas.

Section SearchSelect.
Context `{Hmmlearn}.
Implicit Types (self : ModelSelector) (n : Z) (st : best).
Implicit Types (cand : Z → M (float * option Model)).

Lemma SelectorBIC_select_search self :
  SelectorBIC_select self = search_select (bic_model self) self.
Proof. reflexivity. Qed.

Lemma SelectorDIC_select_search self :
  SelectorDIC_select self = search_select (dic_model self) self.
Proof. reflexivity. Qed.

Lemma search_select_quiet cand self :
  self.(verbose) = false →
  (search_select cand self).2 =
  inr (best_model (fold_left (λ st n, keep st n (cand n).2)
                             (candidates self) (search_init self))).
Proof.
  intros Hv. unfold search_select.
  rewrite res_try, res_bind, base_model_res, res_bind.
  rewrite (search_loop_quiet _ _ _ _ Hv). now rewrite res_bind, res_when.
Qed.

(** With [verbose] on, one failing candidate makes the whole call return
    [None]: the [NameError] of the inner handler reaches the outer one. *)
Lemma search_select_verbose_fails cand self n e :
  self.(verbose) = true → n ∈ candidates self → (cand n).2 = inl e →
  (search_select cand self).2 = inr None.
Proof.
  intros Hv Hin He. unfold search_select.
  rewrite res_try, res_bind, base_model_res, res_bind.
  now rewrite (search_loop_verbose_fails _ _ _ _ _ _ Hv Hin He).
Qed.

Lemma omap_split {A B} (f : A → option B) (l : list A) pre' y post' :
  omap f l = pre' ++ y :: post' →
  ∃ pre x post, l = pre ++ x :: post ∧ f x = Some y ∧
                omap f pre = pre' ∧ omap f post = post'.
Proof.
  revert pre'. induction l as [|a l IH]; intros pre' Heq.
  - now destruct pre'.
  - cbn [omap list_omap] in Heq. destruct (f a) as [b|] eqn:Ea.
    + destruct pre' as [|p pre']; cbn in Heq.
      * injection Heq as -> Hpost. exists [], a, l. now rewrite Ea.
      * injection Heq as -> Hrest.
        destruct (IH _ Hrest) as (pre & x & post & -> & Hx & Hpre & Hpost).
        exists (a :: pre), x, post. cbn [omap list_omap]. rewrite Ea, Hpre.
        now split.
    + destruct (IH _ Heq) as (pre & x & post & -> & Hx & Hpre & Hpost).
      exists (a :: pre), x, post. cbn [omap list_omap]. rewrite Ea, Hpre.
      now split.
Qed.

(** What the quiet search returns: the fallback when no candidate's
    criterion exceeds [-inf], and otherwise the model of the first
    candidate that no other candidate beats. *)
Lemma search_select_quiet_spec cand self :
  self.(verbose) = false →
  ∃ r, (search_select cand self).2 = inr r ∧
    ((r = fitted self self.(n_constant) ∧
      ∀ n s m, n ∈ candidates self → (cand n).2 = inr (s, m) →
               py_gt s neg_infinity = false)
     ∨ (∃ pre n post s,
          candidates self = pre ++ n :: post ∧ (cand n).2 = inr (s, r) ∧
          py_gt s neg_infinity = true ∧
          (∀ n' s' m', n' ∈ pre → (cand n').2 = inr (s', m') →
                       py_ge s' s = false) ∧
          (∀ n' s' m', n' ∈ post → (cand n').2 = inr (s', m') →
                       py_gt s' s = false))).
Proof.
  intros Hv. eexists. split; [now apply search_select_quiet|].
  change (search_init self)
    with (unscan 1 (fitted self self.(n_constant)) (neg_infinity, None)).
  rewrite fold_keep_scan.
  destruct (scan py_gt (scored cand (candidates self)) (neg_infinity, None))
    as [b g] eqn:Esc.
  destruct (scan_gt_spec _ _ _ _ _ Esc)
    as [[[= -> ->] Hall]|(pre' & [k mk] & post' & Hl & -> & Hb & Hpre & Hpost)].
  - left. split; [reflexivity|]. intros n s m Hin Hc.
    rewrite Forall_forall in Hall.
    apply (Hall ((n, m), s)). now apply elem_of_scored.
  - right. apply omap_split in Hl
      as (pre & n & post & Hrange & Hn & <- & <-).
    destruct (cand n).2 as [e|[s m]] eqn:En; [discriminate|].
    injection Hn as -> -> ->.
    exists pre, k, post, b. split; [exact Hrange|]. split; [exact En|].
    split; [exact Hb|]. rewrite Forall_forall in Hpre, Hpost. split.
    + intros n' s' m' Hin Hc.
      apply (Hpre ((n', m'), s')). now apply elem_of_scored.
    + intros n' s' m' Hin Hc.
      apply (Hpost ((n', m'), s')). now apply elem_of_scored.
Qed.

End SearchSelect.

(** ** The BIC and DIC values of a candidate *)

Section Criteria.
Context `{Hmmlearn}.
Implicit Types (self : ModelSelector) (n : Z) (m : Model).

Lemma float_of_int_minus_2 : float_of_int (-2) = ret (-2)%float.
Proof. reflexivity. Qed.

(** X2: when the fit succeeds, [X] has a first row and the model scores
    the word's own data,
    [bic_model] returns [-2 * logL + p * log(N)] with
    [p = n*n + 2*n*F - 1], [F] the length of the first row of [X] and [N]
    the number of rows, together with the fitted model. *)
Lemma bic_model_ok self n m row rest logL pf :
  hmm_fit n self.(random_state) self.(X) self.(lengths) = inr m →
  self.(X) = row :: rest →
  hmm_score m self.(X) self.(lengths) = inr logL →
  float_of_int (n * n + 2 * n * Z.of_nat (length row) - 1) = ret pf →
  (bic_model self n).2 =
  inr (PrimFloat.add (PrimFloat.mul (-2) logL)
         (PrimFloat.mul pf (libm_log (Z.of_nat (length self.(X))))),
       Some m).
Proof.
  intros Hfit HX Hscore Hp. unfold bic_model.
  rewrite res_bind, base_model_res. unfold fitted. rewrite Hfit.
  rewrite res_bind, HX. cbn [len_row0 ret snd]. rewrite <- HX.
  rewrite res_bind. cbn [score_of lift snd]. rewrite Hscore.
  rewrite res_bind. unfold math_log.
  destruct (decide (Z.of_nat (length (X self)) ≤ 0)) as [Hle|_].
  { rewrite HX in Hle. cbn [length] in Hle. lia. }
  cbn [ret snd]. rewrite res_bind. unfold int_mul_float.
  rewrite res_bind, float_of_int_minus_2. cbn [ret snd].
  rewrite res_bind, res_bind, Hp. reflexivity.
Qed.

(** A candidate that comes back from [bic_model] has been fit. *)
Lemma bic_model_inv self n s mm :
  (bic_model self n).2 = inr (s, mm) →
  ∃ m, mm = Some m ∧ fitted self n = Some m.
Proof.
  unfold bic_model. rewrite res_bind, base_model_res.
  destruct (fitted self n) as [m|].
  - rewrite res_bind. destruct (len_row0 _).2; [discriminate|].
    rewrite res_bind. destruct (score_of _ _ _).2; [discriminate|].
    rewrite res_bind. destruct (math_log _).2; [discriminate|].
    rewrite res_bind. destruct (int_mul_float _ _).2; [discriminate|].
    rewrite res_bind. destruct (int_mul_float _ _).2; [discriminate|].
    intros [= <- <-]. now exists m.
  - rewrite res_bind. destruct (len_row0 _).2; [discriminate|].
    rewrite res_bind. discriminate.
Qed.

(** The words other than [this_word], in the order of the dictionary. *)
Lemma anti_dic_loop self m (hw : dict (Xarr * list Z)) ss t c :
  Forall2 (λ wf s, hmm_score m wf.2.1 wf.2.2 = inr s)
          (filter (λ wf, self.(this_word) ≠ wf.1) hw) ss →
  (for_each hw
     (λ '(total_score, word_count) '(word, features),
      if decide (self.(this_word) ≠ word)
      then let '(X, lengths) := features in
           score ← score_of (Some m) X lengths;
           ret (PrimFloat.add total_score score, word_count + 1)
      else ret (total_score, word_count))
     (t, c)).2 =
  inr (fold_left PrimFloat.add ss t, c + Z.of_nat (length ss)).
Proof.
  revert ss t c. induction hw as [|[w [Xw lw]] hw IH]; intros ss t c Hall.
  - cbn in Hall. inversion Hall; subst. cbn. do 2 f_equal. lia.
  - cbn [for_each]. rewrite res_bind. rewrite filter_cons in Hall.
    cbn [fst] in Hall. destruct (decide (this_word self ≠ w)) as [Hne|Heq].
    + inversion Hall as [|? s ? ss' Hs Hrest]; subst. cbn [snd fst] in Hs.
      rewrite res_bind. cbn [score_of lift snd]. rewrite Hs. cbn [ret snd].
      rewrite (IH _ _ _ Hrest). cbn [fold_left length]. do 2 f_equal. lia.
    + cbn [ret snd]. apply IH, Hall.
Qed.

(** X4: when the fit succeeds, the model scores the word's own data and
    the data of every other word, and there is at least one other word,
    [dic_model] returns the score on the word's own data minus the mean
    of the scores on the data of every other word (their sum in
    dictionary order, starting from [0.0], over their count), together
    with the fitted model.  The entry of [this_word] is left out. *)
Lemma dic_model_ok self n m evidence ss d :
  hmm_fit n self.(random_state) self.(X) self.(lengths) = inr m →
  hmm_score m self.(X) self.(lengths) = inr evidence →
  Forall2 (λ wf s, hmm_score m wf.2.1 wf.2.2 = inr s)
          (filter (λ wf, self.(this_word) ≠ wf.1) self.(hwords)) ss →
  ss ≠ [] →
  float_of_int (Z.of_nat (length ss)) = ret d →
  (dic_model self n).2 =
  inr (PrimFloat.sub evidence
         (PrimFloat.div (fold_left PrimFloat.add ss 0%float) d),
       Some m).
Proof.
  intros Hfit Hev Hall Hne Hd. unfold dic_model.
  rewrite res_bind, base_model_res. unfold fitted. rewrite Hfit.
  rewrite res_bind. cbn [score_of lift snd]. rewrite Hev.
  rewrite res_bind. unfold anti_dic_score.
  rewrite res_bind, (anti_dic_loop _ _ _ _ _ _ Hall).
  rewrite res_bind. unfold py_truediv.
  destruct (decide (0 + Z.of_nat (length ss) = 0)) as [H0|_].
  { destruct ss; [congruence|cbn [length] in H0; lia]. }
  rewrite res_bind, Z.add_0_l, Hd. reflexivity.
Qed.

Lemma dic_model_inv self n s mm :
  (dic_model self n).2 = inr (s, mm) →
  ∃ m, mm = Some m ∧ fitted self n = Some m.
Proof.
  unfold dic_model. rewrite res_bind, base_model_res.
  destruct (fitted self n) as [m|].
  - rewrite res_bind. destruct (score_of _ _ _).2; [discriminate|].
    rewrite res_bind. destruct (anti_dic_score _ _).2; [discriminate|].
    intros [= <- <-]. now exists m.
  - rewrite res_bind. discriminate.
Qed.

End Criteria.

(** ** Cross-validation of one candidate *)

Lemma bind_ret_l {A B} (a : A) (k : A → M B) : (ret a ≫= k) = k a.
Proof. unfold mbind, M_bind, bind, ret. now destruct (k a). Qed.

Lemma float_of_int_3 : float_of_int 3 = ret 3%float.
Proof. reflexivity. Qed.

(** Three folds over more than three samples: consecutive test blocks of
    sizes [a], [b], [c] that add up to the number of samples and differ
    by at most one, each trained on everything outside its block. *)
Lemma KFold_split_3 (n : nat) :
  (3 < n)%nat →
  ∃ a b c : nat,
    (a + b + c = n ∧ c ≤ b ≤ a ∧ a ≤ c + 1 ∧ 0 < c)%nat ∧
    KFold_split 3 n =
    ret [ (seq a (n - a), seq 0 a);
          (seq 0 a ++ seq (a + b) (n - (a + b)), seq a b);
          (seq 0 (a + b) ++ seq (a + b + c) (n - (a + b + c)),
           seq (a + b) c) ].
Proof.
  intros Hn.
  exists (n / 3 + (if 0 <? n mod 3 then 1 else 0))%nat,
         (n / 3 + (if 1 <? n mod 3 then 1 else 0))%nat,
         (n / 3 + (if 2 <? n mod 3 then 1 else 0))%nat.
  split.
  - pose proof (Nat.div_mod_eq n 3) as Hdm.
    pose proof (Nat.mod_upper_bound n 3 ltac:(lia)) as Hub.
    destruct (n mod 3)%nat as [|[|[|r]]]; cbn [Nat.ltb Nat.leb]; lia.
  - unfold KFold_split.
    destruct (decide (3 ≤ 1)) as [?|_]; [lia|].
    destruct (decide (Z.of_nat n < 3)) as [?|_]; [lia|].
    reflexivity.
Qed.

Section CrossValidation.
Context `{Hmmlearn}.
Implicit Types (self : ModelSelector) (n : Z) (st : best).

Lemma cv_fold_ok self n fold m s total_score folds mm :
  fold_runs self n fold m s →
  cv_fold self n (total_score, folds, mm) fold =
  ret (PrimFloat.add total_score s, folds + 1, Some m).
Proof.
  intros (Xtr & ltr & Xte & lte & Htr & Hte & Hfit & Hscore).
  destruct fold as [tr te]. cbn [fst snd] in Htr, Hte. unfold cv_fold.
  rewrite Htr, bind_ret_l, Hte, bind_ret_l, Hfit.
  change (lift (inr m)) with (ret m). rewrite bind_ret_l, Hscore.
  change (lift (inr s)) with (ret s). now rewrite bind_ret_l.
Qed.

Lemma cross_validation_model_folds self n f1 f2 f3 m1 s1 m2 s2 m3 s3 :
  (3 < length self.(sequences))%nat →
  KFold_split 3 (length self.(sequences)) = ret [f1; f2; f3] →
  fold_runs self n f1 m1 s1 →
  fold_runs self n f2 m2 s2 →
  fold_runs self n f3 m3 s3 →
  cross_validation_model self n 3 =
  ret (PrimFloat.div
         (PrimFloat.add (PrimFloat.add (PrimFloat.add 0 s1) s2) s3) 3,
       Some m3).
Proof.
  intros Hlen Hsplit H1 H2 H3. unfold cross_validation_model.
  destruct (decide (Z.of_nat (length (sequences self)) > 3)) as [_|?];
    [|lia].
  rewrite Hsplit, bind_ret_l. cbn [for_each].
  rewrite (cv_fold_ok _ _ _ _ _ _ _ _ H1), bind_ret_l.
  rewrite (cv_fold_ok _ _ _ _ _ _ _ _ H2), bind_ret_l.
  rewrite (cv_fold_ok _ _ _ _ _ _ _ _ H3), bind_ret_l, bind_ret_l.
  unfold py_truediv. change (0 + 1 + 1 + 1) with 3.
  destruct (decide (3 = 0)) as [?|_]; [lia|].
  now rewrite float_of_int_3, !bind_ret_l.
Qed.

Lemma cross_validation_model_small self n out fb :
  (length self.(sequences) ≤ 3)%nat →
  base_model self self.(n_constant) = (out, inr fb) →
  cross_validation_model self n 3 = (out, inr (0%float, fb)).
Proof.
  intros Hlen Hfb. unfold cross_validation_model.
  destruct (decide (Z.of_nat (length (sequences self)) > 3)) as [?|_];
    [lia|].
  rewrite Hfb. unfold mbind, M_bind, bind, ret. now rewrite app_nil_r.
Qed.

End CrossValidation.

(** ** The loop of [SelectorCV.select] *)

Lemma res_for_each_app {S E} (body : S → E → M S) l1 l2 s :
  (for_each (l1 ++ l2) body s).2 =
  match (for_each l1 body s).2 with
  | inl e => inl e
  | inr s' => (for_each l2 body s').2
  end.
Proof.
  revert s. induction l1 as [|x l1 IH]; intros s; [reflexivity|].
  cbn [app for_each]. rewrite !res_bind.
  destruct (body s x).2 as [e|s']; [reflexivity|apply IH].
Qed.

Section CVSelect.
Context `{Hmmlearn}.
Implicit Types (self : ModelSelector) (n : Z) (st : best).

Lemma cv_iter_ok self st n out r :
  cross_validation_model self n 3 = (out, inr r) →
  cv_iter self st n = (out, inr (keep_ge st r)).
Proof.
  intros Hc. unfold cv_iter, keep_ge. rewrite Hc. destruct r as [score model].
  unfold mbind, M_bind, bind. cbn [fst snd].
  destruct (py_ge score (best_score st)); cbn; now rewrite app_nil_r.
Qed.

Lemma cv_iter_raises self st n out e :
  cross_validation_model self n 3 = (out, inl e) →
  cv_iter self st n = (out, inl e).
Proof. intros Hc. unfold cv_iter. now rewrite Hc. Qed.

Lemma cv_iter_res self st n :
  (cv_iter self st n).2 =
  match (cross_validation_model self n 3).2 with
  | inl e => inl e
  | inr r => inr (keep_ge st r)
  end.
Proof.
  destruct (cross_validation_model self n 3) as [out [e|r]] eqn:Hc.
  - now rewrite (cv_iter_raises _ _ _ _ _ Hc).
  - now rewrite (cv_iter_ok _ _ _ _ _ Hc).
Qed.

Lemma cv_loop_ok self (sc : Z → float) (md : Z → option Model) l st :
  (∀ n, n ∈ l → (cross_validation_model self n 3).2 = inr (sc n, md n)) →
  (for_each l (cv_iter self) st).2 =
  inr (fold_left (λ st n, keep_ge st (sc n, md n)) l st).
Proof.
  revert st. induction l as [|x l IH]; intros st Hall; [reflexivity|].
  cbn [for_each fold_left]. rewrite res_bind, cv_iter_res.
  rewrite (Hall x) by apply list_elem_of_here.
  apply IH. intros n Hn. apply Hall. now apply list_elem_of_further.
Qed.


Lemma cv_loop_some_failure self l st n e :
  n ∈ l → (cross_validation_model self n 3).2 = inl e →
  ∃ e', (for_each l (cv_iter self) st).2 = inl e'.
Proof.
  intros Hin He. revert st.
  induction l as [|x l IH]; intros st; [now apply elem_of_nil in Hin|].
  cbn [for_each]. rewrite res_bind, cv_iter_res.
  destruct (cross_validation_model self x 3).2 as [e'|r] eqn:Ex;
    [now exists e'|].
  apply IH. apply elem_of_cons in Hin as [->|Hin]; [congruence|exact Hin].
Qed.

Lemma SelectorCV_select_ok self out st :
  for_each (candidates self) (cv_iter self) cv_init = (out, inr st) →
  SelectorCV_select self = (out, inr st.(best_model)).
Proof.
  intros Hl. unfold SelectorCV_select. fold (candidates self). fold cv_init.
  rewrite Hl. cbn. now rewrite app_nil_r.
Qed.

(** An exception that leaves the loop is printed and [None] is returned. *)
Lemma SelectorCV_select_raises self out e :
  for_each (candidates self) (cv_iter self) cv_init = (out, inl e) →
  SelectorCV_select self = (out ++ [exn_str e], inr None).
Proof.
  intros Hl. unfold SelectorCV_select. fold (candidates self). fold cv_init.
  now rewrite Hl.
Qed.

Lemma fold_keep_ge_scan (sc : Z → float) (md : Z → option Model) l s0 :
  fold_left (λ st n, keep_ge st (sc n, md n)) l (cv_unscan s0) =
  cv_unscan (scan py_ge (map (λ n, ((n, md n), sc n)) l) s0).
Proof.
  unfold scan. revert s0. induction l as [|x l IH]; intros s0; [reflexivity|].
  cbn [fold_left map]. rewrite <- IH. f_equal.
  unfold keep_ge, scan_step, cv_unscan. cbn [fst snd best_score].
  now destruct (py_ge (sc x) s0.1).
Qed.

(** When every candidate is evaluated, the loop keeps the last candidate
    that no other candidate beats: no earlier average is [>] its average,
    every later average fails [>=] against it. *)
Lemma SelectorCV_select_spec self (sc : Z → float) (md : Z → option Model) :
  (∀ n, n ∈ candidates self →
        (cross_validation_model self n 3).2 = inr (sc n, md n)) →
  ∃ r, (SelectorCV_select self).2 = inr r ∧
    ((r = None ∧ ∀ n, n ∈ candidates self → py_ge (sc n) neg_infinity = false)
     ∨ (∃ pre n post,
          candidates self = pre ++ n :: post ∧ r = md n ∧
          py_ge (sc n) neg_infinity = true ∧
          (∀ n', n' ∈ pre → py_gt (sc n') (sc n) = false) ∧
          (∀ n', n' ∈ post → py_ge (sc n') (sc n) = false))).
Proof.
  intros Hall.
  destruct (for_each (candidates self) (cv_iter self) cv_init)
    as [out res] eqn:Hl.
  pose proof (cv_loop_ok self sc md (candidates self) cv_init Hall) as Hres.
  rewrite Hl in Hres. cbn [snd] in Hres. subst res.
  rewrite (SelectorCV_select_ok _ _ _ Hl). eexists. split; [reflexivity|].
  change cv_init with (cv_unscan (neg_infinity, None)).
  rewrite fold_keep_ge_scan.
  destruct (scan py_ge _ (neg_infinity, None)) as [b g] eqn:Esc.
  destruct (scan_ge_spec _ _ _ _ _ Esc)
    as [[[= -> ->] Hno]|(pre' & [k mk] & post' & Hl' & -> & Hb & Hpre & Hpost)].
  - left. split; [reflexivity|]. intros n Hn.
    rewrite Forall_forall in Hno.
    apply (Hno ((n, md n), sc n)). apply list_elem_of_fmap. now exists n.
  - right. apply map_eq_app in Hl' as (pre & rest & Hc & <- & Hrest).
    apply map_eq_cons in Hrest as (n & post & -> & [= <- <- <-] & <-).
    exists pre, n, post. split; [exact Hc|]. split; [reflexivity|].
    split; [exact Hb|]. rewrite Forall_forall in Hpre, Hpost. split.
    + intros n' Hn'. apply (Hpre ((n', md n'), sc n')).
      apply list_elem_of_fmap. now exists n'.
    + intros n' Hn'. apply (Hpost ((n', md n'), sc n')).
      apply list_elem_of_fmap. now exists n'.
Qed.

End CVSelect.

(** ** The recognizer *)

Section Recognizer.
Context `{Hmmlearn}.
Implicit Types (models : dict (option Model)) (wp : gmap string float).

Lemma recognize_word_eq test_X test_Xlength wp (g : option string) b
    word (model : option Model) :
  recognize_word test_X test_Xlength (wp, g, b) (word, model) =
  ret (match model with
       | Some m =>
           match hmm_score m test_X test_Xlength with
           | inr score =>
               (<[word := score]> wp,
                if py_gt score b then Some word else g,
                if py_gt score b then score else b)
           | inl _ => (wp, g, b)
           end
       | None => (wp, g, b)
       end).
Proof.
  unfold recognize_word. destruct model as [m|]; [|reflexivity].
  destruct (hmm_score m test_X test_Xlength) as [e|score]; [reflexivity|].
  unfold lift, mbind, M_bind, bind.
  now destruct (py_gt score b).
Qed.

Lemma recognize_loop models test_X test_Xlength wp g b :
  for_each models (recognize_word test_X test_Xlength) (wp, g, b) =
  let sw := scored_words models test_X test_Xlength in
  let sc := scan py_gt sw (b, g) in
  ret (fold_left (λ wp (x : string * float), <[x.1 := x.2]> wp) sw wp,
       sc.2, sc.1).
Proof.
  unfold scan. revert wp g b.
  induction models as [|[word model] models IH]; intros wp g b; [reflexivity|].
  cbn [for_each scored_words omap list_omap fst snd].
  rewrite recognize_word_eq, bind_ret_l. destruct model as [m|]; [|apply IH].
  destruct (hmm_score m test_X test_Xlength) as [e|score]; [apply IH|].
  rewrite IH. cbn [fold_left].
  assert (scan_step py_gt (b, g) (word, score) =
          (if py_gt score b then score else b,
           if py_gt score b then Some word else g)) as ->
    by (unfold scan_step; cbn [fst snd]; now destruct (py_gt score b)).
  reflexivity.
Qed.

Lemma recognize_sequence_eq models test :
  recognize_sequence models test = ret (sequence_result models test).
Proof.
  destruct test as [test_X test_Xlength]. unfold recognize_sequence.
  rewrite recognize_loop. cbv zeta. now rewrite bind_ret_l.
Qed.

Lemma elem_of_scored_words models test_X test_Xlength w s :
  (w, s) ∈ scored_words models test_X test_Xlength ↔
  ∃ m, (w, Some m) ∈ models ∧ hmm_score m test_X test_Xlength = inr s.
Proof.
  unfold scored_words. rewrite list_elem_of_omap. split.
  - intros ([w' [m|]] & Hin & Hsome); cbn [fst snd] in Hsome; [|discriminate].
    destruct (hmm_score m test_X test_Xlength) as [e|s'] eqn:Es;
      [discriminate|].
    injection Hsome as -> ->. now exists m.
  - intros (m & Hin & Hs). exists (w, Some m). split; [exact Hin|].
    cbn [fst snd]. now rewrite Hs.
Qed.





Lemma recognize_acc models (tests : list (Xarr * list Z)) ps gs :
  for_each tests
    (λ '(probabilities, guesses) test,
     '(words_prob, guess_word) ← recognize_sequence models test;
     ret (probabilities ++ [words_prob], guesses ++ [guess_word]))
    (ps, gs) =
  ret (ps ++ map (λ t, (sequence_result models t).1) tests,
       gs ++ map (λ t, (sequence_result models t).2) tests).
Proof.
  revert ps gs. induction tests as [|t tests IH]; intros ps gs.
  - cbn. now rewrite !app_nil_r.
  - cbn [for_each map]. rewrite recognize_sequence_eq, bind_ret_l.
    destruct (sequence_result models t) as [wp g]. rewrite bind_ret_l, IH.
    cbn [fst snd]. now rewrite <- !app_assoc.
Qed.

Lemma recognize_eq models (test_set : SinglesData) :
  recognize models test_set =
  ret (map (λ t, (sequence_result models t.2).1) test_set.(get_all_Xlengths),
       map (λ t, (sequence_result models t.2).2) test_set.(get_all_Xlengths)).
Proof.
  unfold recognize. rewrite recognize_acc. cbn [app]. now rewrite !map_map.
Qed.


(** C8: [recognize] completes for every dictionary of models and every
    test set; both returned lists have one entry per test sequence, the
    entry at position [i] being the score map and the guess of the [i]-th
    sequence of the test set; the guess is [None] when no model scored
    the sequence. *)
Theorem recognize_lengths models (test_set : SinglesData) :
  ∃ probabilities guesses,
    recognize models test_set = ret (probabilities, guesses) ∧
    length probabilities = length test_set.(get_all_Xlengths) ∧
    length guesses = length test_set.(get_all_Xlengths) ∧
    ∀ (i : nat) id test,
      test_set.(get_all_Xlengths) !! i = Some (id, test) →
      ∃ words_prob guess_word,
        recognize_sequence models test = ret (words_prob, guess_word) ∧
        probabilities !! i = Some words_prob ∧
        guesses !! i = Some guess_word ∧
        ((∀ w m, (w, Some m) ∈ models →
                 ∃ e, hmm_score m test.1 test.2 = inl e) →
         words_prob = ∅ ∧ guess_word = None).
Proof.
  unfold recognize. rewrite recognize_acc. cbn [app].
  eexists _, _. split; [reflexivity|].
  rewrite !length_map. split; [reflexivity|]. split; [reflexivity|].
  intros i id test Hi. rewrite recognize_sequence_eq.
  exists (sequence_result models test).1, (sequence_result models test).2.
  split; [now destruct (sequence_result models test)|].
  rewrite !map_map, !list_lookup_fmap, Hi. cbn [fmap option_fmap option_map snd].
  split; [reflexivity|]. split; [reflexivity|].
  intros Hnone. unfold sequence_result.
  assert (scored_words models test.1 test.2 = []) as ->.
  { apply elem_of_nil_inv. intros [w s] Hin.
    apply elem_of_scored_words in Hin as (m & Hin & Hs).
    destruct (Hnone _ _ Hin) as [e He]. congruence. }
  now split.
Qed.

End Recognizer.

(** ** Claims about the selectors *)

Section SelectorClaims.
Context `{Hmmlearn}.
Implicit Types (self : ModelSelector) (n : Z) (st : best).




(** C10: over an empty range, [SelectorBIC] and [SelectorDIC] return what
    [base_model] builds with [n_constant] states, the model fitted with
    [n_constant] states on the word's own data or [None] when that fit
    fails, and [SelectorCV] returns [None], having printed nothing. *)
Theorem empty_range_select self :
  self.(max_n_components) ≤ self.(min_n_components) →
  (base_model self self.(n_constant)).2
    = inr (fitted self self.(n_constant)) ∧
  (SelectorBIC_select self).2 = inr (fitted self self.(n_constant)) ∧
  (SelectorDIC_select self).2 = inr (fitted self self.(n_constant)) ∧
  SelectorCV_select self = ([], inr None).
Proof.
  intros Hle. split; [apply base_model_res|].
  unfold SelectorBIC_select, SelectorDIC_select, SelectorCV_select.
  rewrite (py_range_empty _ _ Hle). cbn [for_each].
  split; [|split; [|reflexivity]].
  - now rewrite res_try, res_bind, base_model_res, bind_ret_l, res_bind,
      res_when.
  - now rewrite res_try, res_bind, base_model_res, bind_ret_l, res_bind,
      res_when.
Qed.

End SelectorClaims.

Section CVClaims.
Context `{Hmmlearn}.
Implicit Types (self : ModelSelector) (n : Z) (st : best).

(** A fold that completes leaves a fitted model in [training_model]. *)
Lemma cv_fold_model self n acc fold acc' :
  (cv_fold self n acc fold).2 = inr acc' → is_Some acc'.2.
Proof.
  destruct acc as [[total_score folds] mm], fold as [tr te]. unfold cv_fold.
  rewrite res_bind.
  destruct (combine_sequences tr _).2 as [?|[X_train lengths_train]];
    [discriminate|].
  rewrite res_bind.
  destruct (combine_sequences te _).2 as [?|[X_test lengths_test]];
    [discriminate|].
  rewrite res_bind. unfold lift at 1. cbn [snd].
  destruct (hmm_fit _ _ _ _) as [?|m]; [discriminate|].
  rewrite res_bind. unfold lift at 1. cbn [snd].
  destruct (hmm_score _ _ _) as [?|s]; [discriminate|].
  intros [= <-]. now exists m.
Qed.

(** The representative model of a candidate: with more than three
    sequences a model fitted on a fold, otherwise what [base_model]
    builds with [n_constant] states. *)
Lemma cross_validation_model_of self n s mm :
  (cross_validation_model self n 3).2 = inr (s, mm) →
  ((3 < length self.(sequences))%nat → is_Some mm) ∧
  ((length self.(sequences) ≤ 3)%nat → mm = fitted self self.(n_constant)).
Proof.
  intros Hc. split; intros Hlen.
  - revert Hc. unfold cross_validation_model.
    destruct (decide (Z.of_nat (length (sequences self)) > 3)) as [_|?];
      [|lia].
    destruct (KFold_split_3 _ Hlen) as (a & b & c & _ & ->).
    rewrite bind_ret_l, res_bind. cbn [for_each]. rewrite res_bind.
    destruct (cv_fold self n _ _).2 as [?|acc1]; [discriminate|].
    rewrite res_bind.
    destruct (cv_fold self n acc1 _).2 as [?|acc2]; [discriminate|].
    rewrite res_bind.
    destruct (cv_fold self n acc2 _).2 as [?|[[t k] m3]] eqn:E3;
      [discriminate|].
    apply cv_fold_model in E3. cbn [ret snd]. rewrite res_bind.
    destruct (py_truediv t k).2; [discriminate|].
    now intros [= <- <-].
  - destruct (base_model_returns self self.(n_constant)) as (out & fb & Hfb).
    rewrite (cross_validation_model_small _ _ _ _ Hlen Hfb) in Hc.
    injection Hc as <- <-.
    pose proof (base_model_res self self.(n_constant)) as Hres.
    rewrite Hfb in Hres. now injection Hres.
Qed.

(** C5: with more than three sequences the candidate is cross-validated
    on three folds whose test blocks cover the sequences in order; when
    the three folds run, the result is the mean of the three test scores
    and the model fitted on the third fold.  With three sequences or
    fewer the result is [0.0] and what [base_model] builds with
    [n_constant] states. *)
Theorem cross_validation_model_spec self n :
  ((3 < length self.(sequences))%nat →
     ∃ f1 f2 f3,
       KFold_split 3 (length self.(sequences)) = ret [f1; f2; f3] ∧
       f1.2 ++ f2.2 ++ f3.2 = seq 0 (length self.(sequences)) ∧
       ∀ m1 s1 m2 s2 m3 s3,
         fold_runs self n f1 m1 s1 →
         fold_runs self n f2 m2 s2 →
         fold_runs self n f3 m3 s3 →
         cross_validation_model self n 3 =
         ret (PrimFloat.div
                (PrimFloat.add (PrimFloat.add (PrimFloat.add 0 s1) s2) s3) 3,
              Some m3)) ∧
  ((length self.(sequences) ≤ 3)%nat →
     ∀ out fallback,
       base_model self self.(n_constant) = (out, inr fallback) →
       cross_validation_model self n 3 = (out, inr (0%float, fallback))).
Proof.
  split.
  - intros Hlen.
    destruct (KFold_split_3 _ Hlen) as (a & b & c & (Hsum & _) & Hsplit).
    eexists _, _, _. split; [exact Hsplit|]. split.
    + cbn [snd]. rewrite <- Hsum.
      now rewrite !seq_app, <- app_assoc.
    + intros m1 s1 m2 s2 m3 s3 H1 H2 H3.
      exact (cross_validation_model_folds self n _ _ _ m1 s1 m2 s2 m3 s3
               Hlen Hsplit H1 H2 H3).
  - intros Hlen out fb Hfb. now apply cross_validation_model_small.
Qed.

(** C6: an iteration of [SelectorCV.select] replaces the best model when
    the candidate's average is [>=] the best so far.  So, when every
    candidate is evaluated, [select] returns the representative model of
    the last candidate that none beats: no earlier average is greater,
    and no later average is even equal.  When an exception leaves the
    loop, [select] prints it and returns [None]; it does not fall back to
    the model of [n_constant] states. *)
Theorem SelectorCV_select_tie_break self :
  (∀ st n out score model,
     cross_validation_model self n 3 = (out, inr (score, model)) →
     py_ge score st.(best_score) = true →
     cv_iter self st n =
     (out, inr {| best_num_states := st.(best_num_states);
                  best_score := score; best_model := model |})) ∧
  (∀ (sc : Z → float) (md : Z → option Model),
     (∀ n, n ∈ candidates self →
           (cross_validation_model self n 3).2 = inr (sc n, md n)) →
     ∃ r, (SelectorCV_select self).2 = inr r ∧
       ((r = None ∧
         ∀ n, n ∈ candidates self → py_ge (sc n) neg_infinity = false)
        ∨ (∃ pre n post,
             candidates self = pre ++ n :: post ∧ r = md n ∧
             py_ge (sc n) neg_infinity = true ∧
             (∀ n', n' ∈ pre → py_gt (sc n') (sc n) = false) ∧
             (∀ n', n' ∈ post → py_ge (sc n') (sc n) = false)))) ∧
  (∀ out e,
     for_each (candidates self) (cv_iter self) cv_init = (out, inl e) →
     SelectorCV_select self = (out ++ [exn_str e], inr None)).
Proof.
  split; [|split].
  - intros st n out score model Hc Hge.
    rewrite (cv_iter_ok _ _ _ _ _ Hc). unfold keep_ge. cbn [fst snd].
    now rewrite Hge.
  - apply SelectorCV_select_spec.
  - apply SelectorCV_select_raises.
Qed.

End CVClaims.

Section ReturnsModel.
Context `{Hmmlearn}.
Implicit Types (self : ModelSelector) (n : Z) (st : best).

Lemma search_select_quiet_model (cand : Z → M (float * option Model)) self :
  self.(verbose) = false →
  (∀ n s mm, (cand n).2 = inr (s, mm) → is_Some mm) →
  (∃ m, (search_select cand self).2 = inr (Some m)) ↔
  (is_Some (fitted self self.(n_constant)) ∨
   ∃ n s mm, n ∈ candidates self ∧ (cand n).2 = inr (s, mm) ∧
             py_gt s neg_infinity = true).
Proof.
  intros Hv Hinv.
  destruct (search_select_quiet_spec cand self Hv)
    as (r & Hr & [[-> Hno]|(pre & n & post & s & Hrange & Hc & Hgt & _)]);
    rewrite Hr.
  - split.
    + intros [m [= Hm]]. left. rewrite Hm. now exists m.
    + intros [[m Hm]|(n & s & mm & Hin & Hc & Hgt)].
      * exists m. now rewrite Hm.
      * rewrite (Hno _ _ _ Hin Hc) in Hgt. discriminate.
  - split.
    + intros _. right. exists n, s, r. split; [|now split].
      rewrite Hrange. apply elem_of_app. right. apply list_elem_of_here.
    + intros _. destruct (Hinv _ _ _ Hc) as [m ->]. now exists m.
Qed.

Lemma search_select_quiet_result (cand : Z → M (float * option Model)) self :
  self.(verbose) = false →
  (∀ n s mm, (cand n).2 = inr (s, mm) → is_Some mm) →
  ∃ r, (search_select cand self).2 = inr r ∧
    (is_Some r ↔
     (is_Some (fitted self self.(n_constant)) ∨
      ∃ n s mm, n ∈ candidates self ∧ (cand n).2 = inr (s, mm) ∧
                py_gt s neg_infinity = true)).
Proof.
  intros Hv Hinv.
  pose proof (search_select_quiet_model cand self Hv Hinv) as Hiff.
  rewrite (search_select_quiet cand self Hv) in Hiff |- *.
  eexists. split; [reflexivity|]. rewrite <- Hiff. split.
  - intros [m Hm]. exists m. now rewrite Hm.
  - intros [m [= Hm]]. exists m. exact Hm.
Qed.

(** C2, as the code has it.  [SelectorConstant] returns the model fitted
    with [n_constant] states, [None] when that fit fails.  [SelectorBIC]
    and [SelectorDIC], with [verbose] off, return a value, and it is a
    model exactly when the fit with [n_constant] states succeeds or some
    candidate of the range is fit and scored with a criterion value
    greater than [-inf]; otherwise it is [None].  [SelectorCV] returns a
    model when every candidate of the range is evaluated without failure,
    some average is not NaN, and either the word has more than three
    sequences or the fit with [n_constant] states succeeds; it returns
    [None] as soon as one candidate of the range fails. *)
Theorem select_returns_model self :
  (SelectorConstant_select self).2 = inr (fitted self self.(n_constant)) ∧
  (self.(verbose) = false →
     (∃ r, (SelectorBIC_select self).2 = inr r ∧
        (is_Some r ↔
         (is_Some (fitted self self.(n_constant)) ∨
          ∃ n s mm, n ∈ candidates self ∧
                    (bic_model self n).2 = inr (s, mm) ∧
                    py_gt s neg_infinity = true))) ∧
     (∃ r, (SelectorDIC_select self).2 = inr r ∧
        (is_Some r ↔
         (is_Some (fitted self self.(n_constant)) ∨
          ∃ n s mm, n ∈ candidates self ∧
                    (dic_model self n).2 = inr (s, mm) ∧
                    py_gt s neg_infinity = true)))) ∧
  (∀ (sc : Z → float) (md : Z → option Model),
     (∀ n, n ∈ candidates self →
           (cross_validation_model self n 3).2 = inr (sc n, md n)) →
     (∃ n, n ∈ candidates self ∧ is_nan (sc n) = false) →
     (3 < length self.(sequences))%nat ∨
       is_Some (fitted self self.(n_constant)) →
     ∃ m, (SelectorCV_select self).2 = inr (Some m)) ∧
  (∀ n e, n ∈ candidates self →
          (cross_validation_model self n 3).2 = inl e →
          (SelectorCV_select self).2 = inr None).
Proof.
  split; [|split; [|split]].
  - unfold SelectorConstant_select. apply base_model_res.
  - intros Hv. split.
    + apply (search_select_quiet_result (bic_model self) self Hv).
      intros n s mm Hc. destruct (bic_model_inv _ _ _ _ Hc) as (m & -> & _).
      now exists m.
    + apply (search_select_quiet_result (dic_model self) self Hv).
      intros n s mm Hc. destruct (dic_model_inv _ _ _ _ Hc) as (m & -> & _).
      now exists m.
  - intros sc md Hall (n0 & Hin0 & Hnan0) Hsome.
    pose proof (FloatOrder.py_ge_neg_infinity _ Hnan0) as Hge0.
    destruct (SelectorCV_select_spec self sc md Hall)
      as (r & Hr & [[-> Hno]|(pre & n & post & Hrange & -> & _)]).
    + rewrite (Hno _ Hin0) in Hge0. discriminate.
    + rewrite Hr. assert (n ∈ candidates self) as Hin.
      { rewrite Hrange. apply elem_of_app. right. apply list_elem_of_here. }
      destruct (cross_validation_model_of _ _ _ _ (Hall _ Hin)) as [Hbig Hsmall].
      destruct (decide (3 < length self.(sequences))%nat) as [Hlen|Hlen].
      * destruct (Hbig Hlen) as [m ->]. now exists m.
      * destruct Hsome as [?|[m Hm]]; [lia|].
        exists m. rewrite Hsmall by lia. now rewrite Hm.
  - intros n e Hin He.
    destruct (cv_loop_some_failure self _ cv_init n e Hin He) as [e' He'].
    destruct (for_each (candidates self) (cv_iter self) cv_init)
      as [out res] eqn:Hl.
    cbn [snd] in He'. subst res.
    now rewrite (SelectorCV_select_raises _ _ _ Hl).
Qed.

End ReturnsModel.

(** * The code on concrete inputs *)

Module Examples.
Import Fake.

(** [__init__] on the two words builds the selector [book]. *)
Lemma book_init :
  ModelSelector_init all_word_sequences all_word_Xlengths "BOOK" 2 2 4 14 false
  = ret (book 2 2 4 false).
Proof. reflexivity. Qed.


(** C2 as stated fails on [SelectorBIC], with [verbose] off: over the
    range [2, 3) the candidate with two states is fit, its model cannot
    score, and the fallback with three states cannot be fit, so [select]
    returns [None].  It fails on [SelectorCV] as well: candidate 2 comes
    back from cross-validation with a model, candidate 3 fails, and
    [select] returns [None]. *)
Lemma a_fit_without_a_model :
  (¬ a_fit_gives_a_model (H := hmm_degenerate3) ∧
   candidates (book 3 2 3 false) = [2] ∧
   fitted (H := hmm_degenerate3) (book 3 2 3 false) 2 = Some (on_book 2) ∧
   SelectorBIC_select (H := hmm_degenerate3) (book 3 2 3 false)
     = ([], inr None)) ∧
  (¬ a_fit_gives_a_model (H := hmm_flat3) ∧
   fits (H := hmm_flat3) CV (book 2 2 4 false) 2 ∧
   (SelectorCV_select (H := hmm_flat3) (book 2 2 4 false)).2 = inr None).
Proof.
  split.
  - split; [|repeat split; vm_compute; reflexivity].
    intros Hclaim. destruct (Hclaim BIC (book 3 2 3 false)) as [m Hm].
    + exists 2. split; [apply list_elem_of_here|]. now exists (on_book 2).
    + vm_compute in Hm. discriminate.
  - assert (fits (H := hmm_flat3) CV (book 2 2 4 false) 2) as Hfits.
    { eexists _, _, _. vm_compute. reflexivity. }
    split; [|split; [exact Hfits|vm_compute; reflexivity]].
    intros Hclaim. destruct (Hclaim CV (book 2 2 4 false)) as [m Hm].
    + exists 2. split; [apply list_elem_of_here|exact Hfits].
    + vm_compute in Hm. discriminate.
Qed.

(** C3, where the code departs from it: with [verbose] on, the candidate
    with two states is fit and scored, its BIC value
    [-2 * -12.5 + 7 * log 4] exceeds [-inf], and the fit with three states
    fails.  The handler of iteration 3 raises [NameError], the outer
    handler returns [None].  The same selector with [verbose] off returns
    the candidate with two states. *)
Theorem SelectorBIC_verbose_failure_returns_None :
  bic_model (H := hmm_rows3) (book 2 2 4 true) 2
    = (["model created for BOOK with 2 states"],
       inr (PrimFloat.add (PrimFloat.mul (-2) (-12.5))
                          (PrimFloat.mul 7 (log 4)),
            Some (on_book 2))) ∧
  (bic_model (H := hmm_rows3) (book 2 2 4 true) 3).2
    = inl (AttributeError "'NoneType' object has no attribute 'score'") ∧
  bic_iter (H := hmm_rows3) (book 2 2 4 true)
           (search_init (H := hmm_rows3) (book 2 2 4 true)) 3
    = (["failure on BOOK with 3 states"], inl (NameError "num_states")) ∧
  SelectorBIC_select (H := hmm_rows3) (book 2 2 4 true)
    = (["model created for BOOK with 2 states";
        "model created for BOOK with 2 states";
        "failure on BOOK with 3 states"], inr None) ∧
  SelectorBIC_select (H := hmm_rows3) (book 2 2 4 false)
    = ([], inr (Some (on_book 2))).
Proof. repeat split; vm_compute; reflexivity. Qed.

(** C4, where the code departs from it: with [verbose] on, the candidate
    with two states has the DIC value [-12.5 - (-20 / 1) = 7.5], the fit
    with three states fails, and [select] returns [None] for the same
    reason as in [SelectorBIC].  With [verbose] off it returns the
    candidate with two states. *)
Theorem SelectorDIC_verbose_failure_returns_None :
  dic_model (H := hmm_rows3) (book 2 2 4 true) 2
    = (["model created for BOOK with 2 states"],
       inr (7.5%float, Some (on_book 2))) ∧
  (dic_model (H := hmm_rows3) (book 2 2 4 true) 3).2
    = inl (AttributeError "'NoneType' object has no attribute 'score'") ∧
  dic_iter (H := hmm_rows3) (book 2 2 4 true)
           (search_init (H := hmm_rows3) (book 2 2 4 true)) 3
    = (["failure on BOOK with 3 states"], inl (NameError "num_states")) ∧
  SelectorDIC_select (H := hmm_rows3) (book 2 2 4 true)
    = (["model created for BOOK with 2 states";
        "model created for BOOK with 2 states";
        "failure on BOOK with 3 states"], inr None) ∧
  SelectorDIC_select (H := hmm_rows3) (book 2 2 4 false)
    = ([], inr (Some (on_book 2))).
Proof. repeat split; vm_compute; reflexivity. Qed.

(** With equal averages the later candidate is returned. *)
Lemma cv_tie_later_wins :
  (cross_validation_model (H := hmm_flat) (book 2 2 4 false) 2 3).2
    = inr ((-5)%float, Some (on_fold3 2)) ∧
  (cross_validation_model (H := hmm_flat) (book 2 2 4 false) 3 3).2
    = inr ((-5)%float, Some (on_fold3 3)) ∧
  SelectorCV_select (H := hmm_flat) (book 2 2 4 false)
    = ([], inr (Some (on_fold3 3))).
Proof. repeat split; vm_compute; reflexivity. Qed.

(** The recognizer on [some_models]: CAR and JOHN leave no entry, BOOK is
    the guess. *)
Lemma recognize_some_models :
  recognize (H := hmm_states) some_models
            {| get_all_Xlengths := [(0, (car_X, [2])); (1, (book_X, [4]))] |}
  = ret ([ {[ "BOOK" := (-12.5)%float; "MARY" := (-20)%float ]};
           {[ "BOOK" := (-12.5)%float; "MARY" := (-20)%float ]} ],
         [Some "BOOK"; Some "BOOK"]).
Proof. vm_compute. reflexivity. Qed.


End Examples.

(** * The hypotheses of the theorems, met on concrete inputs *)

Module Witnesses.
Import Fake.



Lemma select_returns_model_witness :
  (SelectorConstant_select (H := hmm_rows3) (book 2 2 4 false)).2
    = inr (fitted (H := hmm_rows3) (book 2 2 4 false) 2) ∧
  verbose (book 2 2 4 false) = false ∧
  (∃ r, (SelectorBIC_select (H := hmm_rows3) (book 2 2 4 false)).2 = inr r ∧
        is_Some r) ∧
  (∃ r, (SelectorDIC_select (H := hmm_rows3) (book 2 2 4 false)).2 = inr r ∧
        is_Some r) ∧
  (∀ n, n ∈ candidates (book 2 2 4 false) →
        (cross_validation_model (H := hmm_flat) (book 2 2 4 false) n 3).2
        = inr ((-5)%float, Some (on_fold3 n))) ∧
  (∃ n, n ∈ candidates (book 2 2 4 false) ∧ is_nan (-5) = false) ∧
  (3 < length (sequences (book 2 2 4 false)))%nat ∧
  (∃ m, (SelectorCV_select (H := hmm_flat) (book 2 2 4 false)).2
        = inr (Some m)) ∧
  3 ∈ candidates (book 2 2 4 false) ∧
  (cross_validation_model (H := hmm_flat3) (book 2 2 4 false) 3 3).2
    = inl transmat_error ∧
  (SelectorCV_select (H := hmm_flat3) (book 2 2 4 false)).2 = inr None.
Proof.
  assert (Hfit : is_Some (fitted (H := hmm_rows3) (book 2 2 4 false) 2))
    by (now exists (on_book 2)).
  assert (Hv : verbose (book 2 2 4 false) = false) by reflexivity.
  assert (Hall : ∀ n, n ∈ candidates (book 2 2 4 false) →
    (cross_validation_model (H := hmm_flat) (book 2 2 4 false) n 3).2
    = inr ((-5)%float, Some (on_fold3 n))).
  { intros n Hn. change (candidates (book 2 2 4 false)) with [2; 3] in Hn.
    apply elem_of_cons in Hn as [->|Hn]; [vm_compute; reflexivity|].
    apply list_elem_of_singleton in Hn as ->. vm_compute. reflexivity. }
  assert (Hnan : ∃ n, n ∈ candidates (book 2 2 4 false)
                      ∧ is_nan (-5) = false).
  { exists 2. split; [apply list_elem_of_here|reflexivity]. }
  assert (Hlen : (3 < length (sequences (book 2 2 4 false)))%nat)
    by (cbn; lia).
  assert (Hin : 3 ∈ candidates (book 2 2 4 false)).
  { change (candidates (book 2 2 4 false)) with [2; 3].
    apply list_elem_of_further, list_elem_of_here. }
  assert (Hc : (cross_validation_model (H := hmm_flat3)
                  (book 2 2 4 false) 3 3).2 = inl transmat_error)
    by (vm_compute; reflexivity).
  destruct (select_returns_model (H := hmm_rows3) (book 2 2 4 false))
    as (Hconst & Hsearch & _ & _).
  destruct (Hsearch Hv) as [(rb & Hrb & Hbiff) (rd & Hrd & Hdiff)].
  destruct (select_returns_model (H := hmm_flat) (book 2 2 4 false))
    as (_ & _ & Hcv & _).
  destruct (select_returns_model (H := hmm_flat3) (book 2 2 4 false))
    as (_ & _ & _ & Hfail).
  split; [exact Hconst|]. split; [exact Hv|].
  split; [exists rb; split; [exact Hrb|apply Hbiff; now left]|].
  split; [exists rd; split; [exact Hrd|apply Hdiff; now left]|].
  split; [exact Hall|]. split; [exact Hnan|]. split; [exact Hlen|].
  split; [exact (Hcv (λ _, (-5)%float) (λ n, Some (on_fold3 n)) Hall Hnan
                     (or_introl Hlen))|].
  split; [exact Hin|]. split; [exact Hc|].
  exact (Hfail 3 transmat_error Hin Hc).
Defined.

Lemma cross_validation_model_spec_witness :
  (3 < length (sequences (book 2 2 4 false)))%nat ∧
  cross_validation_model (H := hmm_flat3) (book 2 2 4 false) 2 3
    = ret (PrimFloat.div
             (PrimFloat.add (PrimFloat.add (PrimFloat.add 0 (-5)) (-5)) (-5))
             3,
           Some (on_fold3 2)) ∧
  (length (sequences (car 2 2 4 false)) ≤ 3)%nat ∧
  base_model (H := hmm_flat3) (car 2 2 4 false) 2
    = ([], inr (Some {| states := 2; trained_on := car_X |})) ∧
  cross_validation_model (H := hmm_flat3) (car 2 2 4 false) 7 3
    = ([], inr (0%float, Some {| states := 2; trained_on := car_X |})).
Proof.
  assert (Hlen : (3 < length (sequences (book 2 2 4 false)))%nat)
    by (cbn; lia).
  assert (Hlen' : (length (sequences (car 2 2 4 false)) ≤ 3)%nat)
    by (cbn; lia).
  assert (Hfb : base_model (H := hmm_flat3) (car 2 2 4 false) 2
    = ([], inr (Some {| states := 2; trained_on := car_X |})))
    by reflexivity.
  destruct (cross_validation_model_spec (H := hmm_flat3)
              (book 2 2 4 false) 2) as [Hbig _].
  destruct (cross_validation_model_spec (H := hmm_flat3)
              (car 2 2 4 false) 7) as [_ Hsmall].
  split; [exact Hlen|]. split; [|split; [exact Hlen'|split; [exact Hfb|]]].
  - destruct (Hbig Hlen) as (f1 & f2 & f3 & Hsplit & _ & Hfolds).
    vm_compute in Hsplit. injection Hsplit as <- <- <-.
    apply (Hfolds {| states := 2;
                     trained_on := [[3%float]; [4%float]] |} (-5)%float
                  {| states := 2;
                     trained_on := [[1%float]; [2%float]; [4%float]] |}
                  (-5)%float (on_fold3 2) (-5)%float);
      eexists _, _, _, _; repeat split; reflexivity.
  - exact (Hsmall Hlen' _ _ Hfb).
Defined.

Lemma SelectorCV_select_tie_break_witness :
  cross_validation_model (H := hmm_flat) (book 2 2 4 false) 3 3
    = ([], inr ((-5)%float, Some (on_fold3 3))) ∧
  py_ge (-5) (-5) = true ∧
  cv_iter (H := hmm_flat) (book 2 2 4 false)
          (Build_best (H := hmm_flat) 0 (-5)%float (Some (on_fold3 2))) 3
    = ([], inr (Build_best (H := hmm_flat) 0 (-5)%float
                           (Some (on_fold3 3)))) ∧
  (∀ n, n ∈ candidates (book 2 2 4 false) →
        (cross_validation_model (H := hmm_flat) (book 2 2 4 false) n 3).2
        = inr ((-5)%float, Some (on_fold3 n))) ∧
  (∃ r, (SelectorCV_select (H := hmm_flat) (book 2 2 4 false)).2 = inr r ∧
     ((r = None ∧
       ∀ n, n ∈ candidates (book 2 2 4 false) →
            py_ge (-5) neg_infinity = false)
      ∨ (∃ pre n post,
           candidates (book 2 2 4 false) = pre ++ n :: post ∧
           r = Some (on_fold3 n) ∧
           py_ge (-5) neg_infinity = true ∧
           (∀ n', n' ∈ pre → py_gt (-5) (-5) = false) ∧
           (∀ n', n' ∈ post → py_ge (-5) (-5) = false)))) ∧
  for_each (candidates (book 2 2 4 false))
           (cv_iter (H := hmm_flat3) (book 2 2 4 false)) cv_init
    = ([], inl transmat_error) ∧
  SelectorCV_select (H := hmm_flat3) (book 2 2 4 false)
    = ([] ++ [exn_str transmat_error], inr None).
Proof.
  assert (Hc : cross_validation_model (H := hmm_flat) (book 2 2 4 false) 3 3
    = ([], inr ((-5)%float, Some (on_fold3 3)))) by (vm_compute; reflexivity).
  assert (Hall : ∀ n, n ∈ candidates (book 2 2 4 false) →
    (cross_validation_model (H := hmm_flat) (book 2 2 4 false) n 3).2
    = inr ((-5)%float, Some (on_fold3 n))).
  { intros n Hn. change (candidates (book 2 2 4 false)) with [2; 3] in Hn.
    apply elem_of_cons in Hn as [->|Hn]; [vm_compute; reflexivity|].
    apply list_elem_of_singleton in Hn as ->. vm_compute. reflexivity. }
  assert (Hl : for_each (candidates (book 2 2 4 false))
                 (cv_iter (H := hmm_flat3) (book 2 2 4 false)) cv_init
    = ([], inl transmat_error)) by (vm_compute; reflexivity).
  destruct (SelectorCV_select_tie_break (H := hmm_flat) (book 2 2 4 false))
    as (Hiter & Hsel & _).
  destruct (SelectorCV_select_tie_break (H := hmm_flat3) (book 2 2 4 false))
    as (_ & _ & Hraise).
  split; [exact Hc|]. split; [reflexivity|].
  split; [exact (Hiter (Build_best (H := hmm_flat) 0 (-5)%float
                                   (Some (on_fold3 2)))
                       3 [] _ _ Hc eq_refl)|].
  split; [exact Hall|].
  split; [exact (Hsel (λ _, (-5)%float) (λ n, Some (on_fold3 n)) Hall)|].
  split; [exact Hl|]. exact (Hraise _ _ Hl).
Defined.


Lemma empty_range_select_witness :
  max_n_components (book 2 5 5 false) ≤ min_n_components (book 2 5 5 false) ∧
  (base_model (H := hmm_rows3) (book 2 5 5 false)
              (n_constant (book 2 5 5 false))).2
    = inr (fitted (H := hmm_rows3) (book 2 5 5 false)
                  (n_constant (book 2 5 5 false))) ∧
  (SelectorBIC_select (H := hmm_rows3) (book 2 5 5 false)).2
    = inr (fitted (H := hmm_rows3) (book 2 5 5 false)
                  (n_constant (book 2 5 5 false))) ∧
  (SelectorDIC_select (H := hmm_rows3) (book 2 5 5 false)).2
    = inr (fitted (H := hmm_rows3) (book 2 5 5 false)
                  (n_constant (book 2 5 5 false))) ∧
  SelectorCV_select (H := hmm_rows3) (book 2 5 5 false) = ([], inr None).
Proof.
  assert (Hle : max_n_components (book 2 5 5 false)
                ≤ min_n_components (book 2 5 5 false)) by (cbn; lia).
  split; [exact Hle|].
  exact (empty_range_select (H := hmm_rows3) (book 2 5 5 false) Hle).
Defined.

End Witnesses.

(** * Further properties of the selectors and the recognizer *)

(** ** Construction *)

Lemma dict_get_lookup {V} (d : dict V) (k : string) :
  dict_get d k =
  match (list_to_map d : gmap string V) !! k with
  | Some v => ret v
  | None => raise (KeyError k)
  end.
Proof.
  induction d as [|[k' v] d IH]; [reflexivity|].
  cbn [dict_get]. rewrite list_to_map_cons, lookup_insert.
  destruct (decide (k' = k)); [reflexivity|exact IH].
Qed.

(** X1: [__init__] looks [this_word] up in both dictionaries.  When both
    hold it, the selector gets the word's sequences and its (X, lengths)
    pair and keeps the two dictionaries and the parameters; when either
    lacks it, [KeyError] on the word is raised. *)
Theorem ModelSelector_init_lookup (all_word_sequences : dict (list Xarr))
    (all_word_Xlengths : dict (Xarr * list Z)) (this_word : string)
    (n_constant min_n_components max_n_components random_state : Z)
    (verbose : bool) :
  ModelSelector_init all_word_sequences all_word_Xlengths this_word
    n_constant min_n_components max_n_components random_state verbose =
  match (list_to_map all_word_sequences : gmap string (list Xarr))
          !! this_word,
        (list_to_map all_word_Xlengths : gmap string (Xarr * list Z))
          !! this_word with
  | Some sequences, Some (X, lengths) =>
      ret {| words := all_word_sequences; hwords := all_word_Xlengths;
             sequences := sequences; X := X; lengths := lengths;
             this_word := this_word; n_constant := n_constant;
             min_n_components := min_n_components;
             max_n_components := max_n_components;
             random_state := random_state; verbose := verbose |}
  | _, _ => raise (KeyError this_word)
  end.
Proof.
  unfold ModelSelector_init. rewrite !dict_get_lookup.
  destruct ((list_to_map all_word_sequences : gmap string (list Xarr))
              !! this_word) as [sq|]; [|reflexivity].
  rewrite bind_ret_l.
  destruct ((list_to_map all_word_Xlengths : gmap string (Xarr * list Z))
              !! this_word) as [[X0 l0]|]; [|reflexivity].
  now rewrite bind_ret_l.
Qed.

(** ** The criteria *)

Section CriteriaMore.
Context `{Hmmlearn}.
Implicit Types (self : ModelSelector) (n : Z) (st : best).

(** X3: the ways [bic_model] fails.  On an empty [X] it raises
    [IndexError], whatever the fit did; on a non-empty [X] it raises
    [AttributeError] when the fit failed, since [base_model] handed back
    [None]; and when the fitted model cannot score the word's data it
    raises the exception of [score]. *)
Theorem bic_model_failures self n :
  (self.(X) = [] → ∃ msg, (bic_model self n).2 = inl (IndexError msg)) ∧
  (self.(X) ≠ [] → fitted self n = None →
     ∃ msg, (bic_model self n).2 = inl (AttributeError msg)) ∧
  (∀ m e, self.(X) ≠ [] → fitted self n = Some m →
     hmm_score m self.(X) self.(lengths) = inl e →
     (bic_model self n).2 = inl e).
Proof.
  unfold bic_model. rewrite res_bind, base_model_res, res_bind.
  split; [|split].
  - intros ->. eexists. reflexivity.
  - intros HX Hfit. destruct self.(X) as [|row rest] eqn:EX; [congruence|].
    cbn [len_row0 ret snd]. rewrite res_bind, Hfit. eexists. reflexivity.
  - intros m e HX Hfit Hscore.
    destruct self.(X) as [|row rest] eqn:EX; [congruence|].
    cbn [len_row0 ret snd]. rewrite res_bind, Hfit.
    cbn [score_of lift snd]. now rewrite Hscore.
Qed.

Lemma anti_dic_score_alone self m :
  (∀ wf, wf ∈ self.(hwords) → wf.1 = self.(this_word)) →
  (anti_dic_score self (Some m)).2
  = inl (ZeroDivisionError "division by zero").
Proof.
  intros Halone. unfold anti_dic_score.
  assert (filter (λ wf : string * (Xarr * list Z), self.(this_word) ≠ wf.1)
                 self.(hwords) = []) as Hnil.
  { apply elem_of_nil_inv. intros wf Hin.
    apply list_elem_of_filter in Hin as [Hne Hin].
    apply Hne. symmetry. now apply Halone. }
  rewrite res_bind, (anti_dic_loop self m _ [] 0%float 0);
    [|rewrite Hnil; constructor].
  reflexivity.
Qed.

Lemma dic_model_alone self n :
  (∀ wf, wf ∈ self.(hwords) → wf.1 = self.(this_word)) →
  ∃ e, (dic_model self n).2 = inl e.
Proof.
  intros Halone. unfold dic_model. rewrite res_bind, base_model_res.
  destruct (fitted self n) as [m|]; [|rewrite res_bind; now eexists].
  rewrite res_bind. destruct (score_of _ _ _).2 as [e|s]; [now eexists|].
  rewrite res_bind, (anti_dic_score_alone _ _ Halone). now eexists.
Qed.

Lemma fold_keep_all_fail (cand : Z → M (float * option Model)) l st :
  (∀ n, n ∈ l → ∃ e, (cand n).2 = inl e) →
  fold_left (λ st n, keep st n (cand n).2) l st = st.
Proof.
  revert st. induction l as [|x l IH]; intros st Hall; [reflexivity|].
  cbn [fold_left]. destruct (Hall x) as [e ->]; [apply list_elem_of_here|].
  cbn [keep]. apply IH. intros n Hn. apply Hall.
  now apply list_elem_of_further.
Qed.

(** X5: when the dictionary holds no word other than [this_word], the
    mean over the other words divides by zero, every candidate of
    [SelectorDIC] is disqualified, and with [verbose] off [select] returns
    what [base_model] builds with [n_constant] states. *)
Theorem SelectorDIC_select_alone self :
  self.(verbose) = false →
  (∀ wf, wf ∈ self.(hwords) → wf.1 = self.(this_word)) →
  (∀ m, (anti_dic_score self (Some m)).2
        = inl (ZeroDivisionError "division by zero")) ∧
  (SelectorDIC_select self).2 = inr (fitted self self.(n_constant)).
Proof.
  intros Hv Halone. split; [intros m; now apply anti_dic_score_alone|].
  rewrite SelectorDIC_select_search, (search_select_quiet _ _ Hv).
  rewrite fold_keep_all_fail; [reflexivity|].
  intros n _. now apply dic_model_alone.
Qed.

(** X6: with [verbose] on, a single candidate of the range whose
    evaluation fails makes [SelectorBIC.select] and [SelectorDIC.select]
    return [None], whatever the other candidates scored and whether or not
    the fit with [n_constant] states succeeds. *)
Theorem verbose_failure_returns_None self n e :
  self.(verbose) = true → n ∈ candidates self →
  ((bic_model self n).2 = inl e → (SelectorBIC_select self).2 = inr None) ∧
  ((dic_model self n).2 = inl e → (SelectorDIC_select self).2 = inr None).
Proof.
  intros Hv Hin. split; intros He.
  - rewrite SelectorBIC_select_search.
    now apply (search_select_verbose_fails _ _ n e).
  - rewrite SelectorDIC_select_search.
    now apply (search_select_verbose_fails _ _ n e).
Qed.

End CriteriaMore.

(** ** The quiet search *)

Section QuietSearch.
Context `{Hmmlearn}.
Implicit Types (self : ModelSelector) (n : Z) (st : best).




(** *** [verbose] and the result *)

Lemma search_loop_all_return (cand : Z → M (float * option Model)) self l st :
  (∀ n, n ∈ l → ∃ r, (cand n).2 = inr r) →
  (for_each l (search_iter cand self) st).2 =
  inr (fold_left (λ st n, keep st n (cand n).2) l st).
Proof.
  revert st. induction l as [|x l IH]; intros st Hall; [reflexivity|].
  cbn [for_each fold_left]. rewrite res_bind.
  destruct (Hall x) as [r Hr]; [apply list_elem_of_here|].
  assert ((search_iter cand self st x).2 = inr (keep st x (cand x).2)) as ->.
  { destruct self.(verbose) eqn:Hv.
    - rewrite (search_iter_verbose _ _ _ _ Hv). now rewrite Hr.
    - now apply search_iter_quiet. }
  apply IH. intros n Hn. apply Hall. now apply list_elem_of_further.
Qed.

Lemma fold_keep_ext (c1 c2 : Z → M (float * option Model)) l st :
  (∀ n, (c1 n).2 = (c2 n).2) →
  fold_left (λ st n, keep st n (c1 n).2) l st =
  fold_left (λ st n, keep st n (c2 n).2) l st.
Proof.
  intros Hext. revert st. induction l as [|x l IH]; intros st; [reflexivity|].
  cbn [fold_left]. now rewrite Hext, IH.
Qed.

Lemma search_select_all_return (cand : Z → M (float * option Model)) self :
  (∀ n, n ∈ candidates self → ∃ r, (cand n).2 = inr r) →
  (search_select cand self).2 =
  inr (best_model (fold_left (λ st n, keep st n (cand n).2)
                             (candidates self) (search_init self))).
Proof.
  intros Hall. unfold search_select.
  rewrite res_try, res_bind, base_model_res, res_bind.
  fold (candidates self).
  rewrite (search_loop_all_return _ _ _ _ Hall).
  now rewrite res_bind, res_when.
Qed.

Lemma bic_model_with_verbose b self n :
  (bic_model (with_verbose b self) n).2 = (bic_model self n).2.
Proof. unfold bic_model. now rewrite !res_bind, !base_model_res. Qed.

Lemma dic_model_with_verbose b self n :
  (dic_model (with_verbose b self) n).2 = (dic_model self n).2.
Proof. unfold dic_model. now rewrite !res_bind, !base_model_res. Qed.

(** X9: when every candidate of the range is evaluated without failure,
    [verbose] does not change what [SelectorBIC.select] and
    [SelectorDIC.select] return. *)
Theorem verbose_keeps_result self :
  ((∀ n, n ∈ candidates self → ∃ r, (bic_model self n).2 = inr r) →
   (SelectorBIC_select (with_verbose true self)).2
   = (SelectorBIC_select (with_verbose false self)).2) ∧
  ((∀ n, n ∈ candidates self → ∃ r, (dic_model self n).2 = inr r) →
   (SelectorDIC_select (with_verbose true self)).2
   = (SelectorDIC_select (with_verbose false self)).2).
Proof.
  split; intros Hall.
  - rewrite !SelectorBIC_select_search.
    rewrite !search_select_all_return
      by (intros n Hn; rewrite bic_model_with_verbose; now apply Hall).
    f_equal. f_equal.
    rewrite (fold_keep_ext _ (bic_model self)) by apply bic_model_with_verbose.
    symmetry.
    now rewrite (fold_keep_ext _ (bic_model self))
      by apply bic_model_with_verbose.
  - rewrite !SelectorDIC_select_search.
    rewrite !search_select_all_return
      by (intros n Hn; rewrite dic_model_with_verbose; now apply Hall).
    f_equal. f_equal.
    rewrite (fold_keep_ext _ (dic_model self)) by apply dic_model_with_verbose.
    symmetry.
    now rewrite (fold_keep_ext _ (dic_model self))
      by apply dic_model_with_verbose.
Qed.

(** X10: with [verbose] on and an empty range, the last line printed by
    [SelectorBIC.select] and [SelectorDIC.select] names [1] state, the
    initial value of [best_num_states], while the model returned is the
    one built with [n_constant] states. *)
Theorem empty_range_log self :
  self.(verbose) = true →
  self.(max_n_components) ≤ self.(min_n_components) →
  SelectorBIC_select self
  = ((base_model self self.(n_constant)).1
       ++ [msg_created self.(this_word) 1],
     inr (fitted self self.(n_constant))) ∧
  SelectorDIC_select self
  = ((base_model self self.(n_constant)).1
       ++ [msg_created self.(this_word) 1],
     inr (fitted self self.(n_constant))).
Proof.
  intros Hv Hle. unfold SelectorBIC_select, SelectorDIC_select.
  rewrite (py_range_empty _ _ Hle), Hv. cbn [for_each when].
  pose proof (base_model_res self self.(n_constant)) as Hres.
  destruct (base_model self self.(n_constant)) as [out r].
  cbn [snd] in Hres. subst r. cbn [fst]. split; reflexivity.
Qed.

End QuietSearch.

(** ** More on [SelectorCV] *)





Section CVMore.
Context `{Hmmlearn}.
Implicit Types (self : ModelSelector) (n : Z) (st : best).




(** X12: [SelectorCV.select] returns [None] as soon as one candidate of the
    range fails, wherever it stands in the range and whatever the other
    candidates scored. *)
Theorem SelectorCV_select_any_failure self n e :
  n ∈ candidates self →
  (cross_validation_model self n 3).2 = inl e →
  (SelectorCV_select self).2 = inr None.
Proof.
  intros Hin He.
  destruct (cv_loop_some_failure self _ cv_init n e Hin He) as [e' He'].
  destruct (for_each (candidates self) (cv_iter self) cv_init)
    as [out res] eqn:Hl.
  cbn [snd] in He'. subst res.
  now rewrite (SelectorCV_select_raises _ _ _ Hl).
Qed.

(** X13: for a word with three sequences or fewer and a non-empty range,
    [SelectorCV.select] returns what [base_model] builds with [n_constant]
    states: every candidate gets the average [0.0] and that model. *)
Theorem SelectorCV_select_few_sequences self :
  (length self.(sequences) ≤ 3)%nat →
  self.(min_n_components) < self.(max_n_components) →
  (∀ n, (cross_validation_model self n 3).2
        = inr (0%float, fitted self self.(n_constant))) ∧
  (SelectorCV_select self).2 = inr (fitted self self.(n_constant)).
Proof.
  intros Hlen Hrange.
  assert (Hc : ∀ n, (cross_validation_model self n 3).2
                    = inr (0%float, fitted self self.(n_constant))).
  { intros n.
    destruct (base_model_returns self self.(n_constant)) as (out & fb & Hfb).
    rewrite (cross_validation_model_small _ _ _ _ Hlen Hfb).
    pose proof (base_model_res self self.(n_constant)) as Hres.
    rewrite Hfb in Hres. cbn [snd] in Hres. now injection Hres as ->. }
  split; [exact Hc|].
  destruct (SelectorCV_select_spec self (λ _, 0%float)
              (λ _, fitted self self.(n_constant)) (λ n _, Hc n))
    as (r & Hr & [[_ Hno]|(pre & n & post & _ & -> & _)]); [|exact Hr].
  exfalso.
  assert (self.(min_n_components) ∈ candidates self) as Hin.
  { unfold candidates, py_range.
    destruct (Z.to_nat (self.(max_n_components) - self.(min_n_components)))
      as [|k] eqn:Ek; [lia|].
    cbn [seq map]. rewrite Z.add_0_r. apply list_elem_of_here. }
  specialize (Hno _ Hin). discriminate Hno.
Qed.

End CVMore.

(** ** More on the recognizer *)

Section RecognizerMore.
Context `{Hmmlearn}.
Implicit Types (models : dict (option Model)).

Lemma scored_words_filter models test_X test_Xlength :
  scored_words (filter (λ item, is_Some item.2) models) test_X test_Xlength
  = scored_words models test_X test_Xlength.
Proof.
  unfold scored_words. induction models as [|[w mo] models IH]; [reflexivity|].
  rewrite filter_cons. cbn [snd].
  destruct (decide (is_Some mo)) as [[m ->]|Hnone].
  - cbn [omap list_omap]. now rewrite IH.
  - destruct mo as [m|]; [exfalso; apply Hnone; now exists m|].
    cbn [omap list_omap snd]. exact IH.
Qed.

(** X14: a word whose model is [None] takes no part: dropping the [None]
    entries from the dictionary of models changes neither the score maps
    nor the guesses. *)
Theorem recognize_drops_None models (test_set : SinglesData) :
  recognize (filter (λ item, is_Some item.2) models) test_set
  = recognize models test_set.
Proof.
  rewrite !recognize_eq. unfold sequence_result.
  f_equal. f_equal; apply map_ext; intros [id [test_X test_Xlength]];
    cbn [fst snd]; now rewrite scored_words_filter.
Qed.

(** X15: the test sequences are recognized one by one: the result for two
    test sets put end to end is the result for the first followed by the
    result for the second. *)
Theorem recognize_app models (tests1 tests2 : list (Z * (Xarr * list Z))) :
  ∃ p1 g1 p2 g2,
    recognize models {| get_all_Xlengths := tests1 |} = ret (p1, g1) ∧
    recognize models {| get_all_Xlengths := tests2 |} = ret (p2, g2) ∧
    recognize models {| get_all_Xlengths := tests1 ++ tests2 |}
    = ret (p1 ++ p2, g1 ++ g2).
Proof.
  eexists _, _, _, _. rewrite !recognize_eq. cbn [get_all_Xlengths].
  split; [reflexivity|]. split; [reflexivity|]. now rewrite !map_app.
Qed.

(** X16: with an empty dictionary of models every score map is empty and
    every guess is [None], one of each per test sequence. *)
Theorem recognize_no_models (test_set : SinglesData) :
  recognize [] test_set
  = ret (replicate (length test_set.(get_all_Xlengths)) ∅,
         replicate (length test_set.(get_all_Xlengths)) None).
Proof.
  rewrite recognize_eq. f_equal. f_equal.
  - induction test_set.(get_all_Xlengths) as [|t l IH]; [reflexivity|].
    cbn [map length replicate]. now rewrite IH.
  - induction test_set.(get_all_Xlengths) as [|t l IH]; [reflexivity|].
    cbn [map length replicate]. now rewrite IH.
Qed.

End RecognizerMore.

(** * The hypotheses of the further properties, met on concrete inputs *)

Module MoreWitnesses.
Import Fake.

Lemma bic_model_ok_witness :
  hmm_fit (Hmmlearn := hmm_rows3) 2 (random_state (book 2 2 4 false))
          (X (book 2 2 4 false)) (lengths (book 2 2 4 false))
    = inr (on_book 2) ∧
  X (book 2 2 4 false)
    = [1%float] :: [[2%float]; [3%float]; [4%float]] ∧
  hmm_score (Hmmlearn := hmm_rows3) (on_book 2) (X (book 2 2 4 false))
            (lengths (book 2 2 4 false)) = inr (-12.5)%float ∧
  float_of_int (2 * 2 + 2 * 2 * Z.of_nat (length [1%float]) - 1)
    = ret 7%float ∧
  (bic_model (H := hmm_rows3) (book 2 2 4 false) 2).2
    = inr (PrimFloat.add (PrimFloat.mul (-2) (-12.5))
             (PrimFloat.mul 7
                (libm_log (Hmmlearn := hmm_rows3)
                   (Z.of_nat (length (X (book 2 2 4 false)))))),
           Some (on_book 2)).
Proof.
  split; [reflexivity|]. split; [reflexivity|]. split; [reflexivity|].
  split; [reflexivity|].
  apply (bic_model_ok (H := hmm_rows3) (book 2 2 4 false) 2 (on_book 2)
           [1%float] [[2%float]; [3%float]; [4%float]]);
    reflexivity.
Defined.

Lemma bic_model_failures_witness :
  X (Edge.no_frames false) = [] ∧
  (∃ msg, (bic_model (H := hmm_flat) (Edge.no_frames false) 2).2
          = inl (IndexError msg)) ∧
  X (book 2 2 4 false) ≠ [] ∧
  fitted (H := hmm_rows3) (book 2 2 4 false) 3 = None ∧
  (∃ msg, (bic_model (H := hmm_rows3) (book 2 2 4 false) 3).2
          = inl (AttributeError msg)) ∧
  fitted (H := hmm_degenerate3) (book 2 2 4 false) 2 = Some (on_book 2) ∧
  hmm_score (Hmmlearn := hmm_degenerate3) (on_book 2) (X (book 2 2 4 false))
            (lengths (book 2 2 4 false))
    = inl (ValueError "startprob_ must sum to 1.0") ∧
  (bic_model (H := hmm_degenerate3) (book 2 2 4 false) 2).2
    = inl (ValueError "startprob_ must sum to 1.0").
Proof.
  assert (HX : X (book 2 2 4 false) ≠ []) by discriminate.
  destruct (bic_model_failures (H := hmm_flat) (Edge.no_frames false) 2)
    as (Hempty & _ & _).
  destruct (bic_model_failures (H := hmm_rows3) (book 2 2 4 false) 3)
    as (_ & Hfit & _).
  destruct (bic_model_failures (H := hmm_degenerate3) (book 2 2 4 false) 2)
    as (_ & _ & Hscore).
  split; [reflexivity|]. split; [exact (Hempty eq_refl)|].
  split; [exact HX|]. split; [reflexivity|].
  split; [exact (Hfit HX eq_refl)|]. split; [reflexivity|].
  split; [reflexivity|].
  exact (Hscore (on_book 2) _ HX eq_refl eq_refl).
Defined.

Lemma dic_model_ok_witness :
  hmm_fit (Hmmlearn := hmm_rows3) 2 (random_state (book 2 2 4 false))
          (X (book 2 2 4 false)) (lengths (book 2 2 4 false))
    = inr (on_book 2) ∧
  hmm_score (Hmmlearn := hmm_rows3) (on_book 2) (X (book 2 2 4 false))
            (lengths (book 2 2 4 false)) = inr (-12.5)%float ∧
  Forall2 (λ (wf : string * (Xarr * list Z)) s,
             hmm_score (Hmmlearn := hmm_rows3) (on_book 2) wf.2.1 wf.2.2
             = inr s)
          (filter (λ wf, this_word (book 2 2 4 false) ≠ wf.1)
                  (hwords (book 2 2 4 false)))
          [(-20)%float] ∧
  [(-20)%float] ≠ [] ∧
  float_of_int (Z.of_nat (length [(-20)%float])) = ret 1%float ∧
  (dic_model (H := hmm_rows3) (book 2 2 4 false) 2).2
    = inr (PrimFloat.sub (-12.5)
             (PrimFloat.div (fold_left PrimFloat.add [(-20)%float] 0%float)
                1),
           Some (on_book 2)).
Proof.
  assert (Hall : Forall2 (λ (wf : string * (Xarr * list Z)) s,
             hmm_score (Hmmlearn := hmm_rows3) (on_book 2) wf.2.1 wf.2.2
             = inr s)
          (filter (λ wf, this_word (book 2 2 4 false) ≠ wf.1)
                  (hwords (book 2 2 4 false)))
          [(-20)%float]).
  { change (filter (λ wf : string * (Xarr * list Z),
                      this_word (book 2 2 4 false) ≠ wf.1)
                   (hwords (book 2 2 4 false)))
      with [("CAR", (car_X, [2]))].
    constructor; [reflexivity|constructor]. }
  assert (Hne : [(-20)%float] ≠ []) by discriminate.
  split; [reflexivity|]. split; [reflexivity|]. split; [exact Hall|].
  split; [exact Hne|]. split; [reflexivity|].
  exact (dic_model_ok (H := hmm_rows3) (book 2 2 4 false) 2 (on_book 2)
           (-12.5)%float [(-20)%float] 1%float eq_refl eq_refl Hall Hne
           eq_refl).
Defined.

Lemma lonely_alone :
  ∀ wf : string * (Xarr * list Z),
    wf ∈ hwords (Lonely.book 2 2 4 false) →
    wf.1 = this_word (Lonely.book 2 2 4 false).
Proof.
  intros wf Hin. apply list_elem_of_singleton in Hin as ->. reflexivity.
Defined.

Lemma SelectorDIC_select_alone_witness :
  verbose (Lonely.book 2 2 4 false) = false ∧
  (∀ wf : string * (Xarr * list Z),
     wf ∈ hwords (Lonely.book 2 2 4 false) →
     wf.1 = this_word (Lonely.book 2 2 4 false)) ∧
  (SelectorDIC_select (H := hmm_rows3) (Lonely.book 2 2 4 false)).2
    = inr (fitted (H := hmm_rows3) (Lonely.book 2 2 4 false) 2).
Proof.
  split; [reflexivity|]. split; [exact lonely_alone|].
  exact (proj2 (SelectorDIC_select_alone (H := hmm_rows3)
                  (Lonely.book 2 2 4 false) eq_refl lonely_alone)).
Defined.

Lemma verbose_failure_returns_None_witness :
  verbose (book 2 2 4 true) = true ∧
  3 ∈ candidates (book 2 2 4 true) ∧
  (bic_model (H := hmm_rows3) (book 2 2 4 true) 3).2
    = inl (AttributeError "'NoneType' object has no attribute 'score'") ∧
  (SelectorBIC_select (H := hmm_rows3) (book 2 2 4 true)).2 = inr None ∧
  (dic_model (H := hmm_rows3) (book 2 2 4 true) 3).2
    = inl (AttributeError "'NoneType' object has no attribute 'score'") ∧
  (SelectorDIC_select (H := hmm_rows3) (book 2 2 4 true)).2 = inr None.
Proof.
  assert (Hin : 3 ∈ candidates (book 2 2 4 true)).
  { change (candidates (book 2 2 4 true)) with [2; 3].
    apply list_elem_of_further, list_elem_of_here. }
  destruct (verbose_failure_returns_None (H := hmm_rows3) (book 2 2 4 true) 3
              (AttributeError "'NoneType' object has no attribute 'score'")
              eq_refl Hin) as [Hbic Hdic].
  split; [reflexivity|]. split; [exact Hin|]. split; [reflexivity|].
  split; [exact (Hbic eq_refl)|]. split; [reflexivity|].
  exact (Hdic eq_refl).
Defined.



Lemma verbose_keeps_result_witness :
  (∀ n, n ∈ candidates (book 2 2 4 false) →
        ∃ r, (bic_model (H := hmm (λ _, false) by_rows)
                        (book 2 2 4 false) n).2 = inr r) ∧
  (SelectorBIC_select (H := hmm (λ _, false) by_rows)
                      (with_verbose true (book 2 2 4 false))).2
  = (SelectorBIC_select (H := hmm (λ _, false) by_rows)
                        (with_verbose false (book 2 2 4 false))).2 ∧
  (∀ n, n ∈ candidates (book 2 2 4 false) →
        ∃ r, (dic_model (H := hmm (λ _, false) by_rows)
                        (book 2 2 4 false) n).2 = inr r) ∧
  (SelectorDIC_select (H := hmm (λ _, false) by_rows)
                      (with_verbose true (book 2 2 4 false))).2
  = (SelectorDIC_select (H := hmm (λ _, false) by_rows)
                        (with_verbose false (book 2 2 4 false))).2.
Proof.
  assert (Hb : ∀ n, n ∈ candidates (book 2 2 4 false) →
    ∃ r, (bic_model (H := hmm (λ _, false) by_rows)
                    (book 2 2 4 false) n).2 = inr r).
  { intros n Hn. change (candidates (book 2 2 4 false)) with [2; 3] in Hn.
    apply elem_of_cons in Hn as [->|Hn]; [eexists; vm_compute; reflexivity|].
    apply list_elem_of_singleton in Hn as ->.
    eexists. vm_compute. reflexivity. }
  assert (Hd : ∀ n, n ∈ candidates (book 2 2 4 false) →
    ∃ r, (dic_model (H := hmm (λ _, false) by_rows)
                    (book 2 2 4 false) n).2 = inr r).
  { intros n Hn. change (candidates (book 2 2 4 false)) with [2; 3] in Hn.
    apply elem_of_cons in Hn as [->|Hn]; [eexists; vm_compute; reflexivity|].
    apply list_elem_of_singleton in Hn as ->.
    eexists. vm_compute. reflexivity. }
  destruct (verbose_keeps_result (H := hmm (λ _, false) by_rows)
              (book 2 2 4 false)) as [Hbic Hdic].
  split; [exact Hb|]. split; [exact (Hbic Hb)|]. split; [exact Hd|].
  exact (Hdic Hd).
Defined.

Lemma empty_range_log_witness :
  verbose (book 2 5 5 true) = true ∧
  max_n_components (book 2 5 5 true) ≤ min_n_components (book 2 5 5 true) ∧
  SelectorBIC_select (H := hmm_rows3) (book 2 5 5 true)
    = (["model created for BOOK with 2 states";
        "model created for BOOK with 1 states"],
       inr (Some (on_book 2))).
Proof.
  assert (Hle : max_n_components (book 2 5 5 true)
                ≤ min_n_components (book 2 5 5 true)) by (cbn; lia).
  split; [reflexivity|]. split; [exact Hle|].
  exact (proj1 (empty_range_log (H := hmm_rows3) (book 2 5 5 true)
                  eq_refl Hle)).
Defined.


Lemma SelectorCV_select_any_failure_witness :
  3 ∈ candidates (book 2 2 4 false) ∧
  (cross_validation_model (H := hmm_flat3) (book 2 2 4 false) 3 3).2
    = inl transmat_error ∧
  (SelectorCV_select (H := hmm_flat3) (book 2 2 4 false)).2 = inr None.
Proof.
  assert (Hin : 3 ∈ candidates (book 2 2 4 false)).
  { change (candidates (book 2 2 4 false)) with [2; 3].
    apply list_elem_of_further, list_elem_of_here. }
  assert (Hc : (cross_validation_model (H := hmm_flat3)
                  (book 2 2 4 false) 3 3).2 = inl transmat_error)
    by (vm_compute; reflexivity).
  split; [exact Hin|]. split; [exact Hc|].
  exact (SelectorCV_select_any_failure (H := hmm_flat3) (book 2 2 4 false)
           3 transmat_error Hin Hc).
Defined.

Lemma SelectorCV_select_few_sequences_witness :
  (length (sequences (car 2 2 4 false)) ≤ 3)%nat ∧
  min_n_components (car 2 2 4 false) < max_n_components (car 2 2 4 false) ∧
  (SelectorCV_select (H := hmm_flat3) (car 2 2 4 false)).2
    = inr (fitted (H := hmm_flat3) (car 2 2 4 false) 2).
Proof.
  assert (Hlen : (length (sequences (car 2 2 4 false)) ≤ 3)%nat)
    by (cbn; lia).
  assert (Hrange : min_n_components (car 2 2 4 false)
                   < max_n_components (car 2 2 4 false)) by (cbn; lia).
  split; [exact Hlen|]. split; [exact Hrange|].
  exact (proj2 (SelectorCV_select_few_sequences (H := hmm_flat3)
                  (car 2 2 4 false) Hlen Hrange)).
Defined.

End MoreWitnesses.
